(** * forge.config.js: the Electron Forge packaging configuration of Komorebi UI

    A shallow embedding of [forge.config.js]: the configuration record, the
    three lifecycle hooks ([generateAssets], [prePackage], [packageAfterCopy])
    and the parts of the JavaScript and Node runtime they use
    ([String.prototype.includes], [Array.prototype.join], [path.join], the
    synchronous [fs] calls).  The hooks are written in a small state and
    exception monad over a file store; the external tools they call (the
    schema compiler, the build script, the PowerShell script) are the fields
    of a type class. *)

From Stdlib Require Import String Ascii List.
From stdpp Require Import base option list gmap strings.
Import ListNotations.

Local Open Scope string_scope.
Local Open Scope list_scope.

(** ** JavaScript strings and arrays

    A string is the list of its bytes.  The needle and the separator of the
    configuration are ASCII, for which an occurrence among bytes and one among
    UTF-16 code units are the same thing. *)

Module Js.

(** [needle] occurs in [s] starting at its first character. *)
Fixpoint startsWith (s needle : string) : bool :=
  match needle, s with
  | EmptyString, _ => true
  | String _ _, EmptyString => false
  | String c needle', String d s' =>
      if Ascii.eqb c d then startsWith s' needle' else false
  end.

(** [s.includes(needle)]: [needle] occurs in [s] at some position. *)
Fixpoint includes (s needle : string) : bool :=
  if startsWith s needle then true
  else match s with
       | EmptyString => false
       | String _ s' => includes s' needle
       end.

(** The line feed, [\n] in a JavaScript literal. *)
Definition LF : string := String (ascii_of_nat 10) EmptyString.

(** [l.join(sep)] on an array of strings: the elements in order, with
    [sep] between two consecutive ones. *)
Fixpoint join (l : list string) (sep : string) : string :=
  match l with
  | [] => ""
  | x :: rest =>
      match rest with
      | [] => x
      | _ :: _ => x +:+ sep +:+ join rest sep
      end
  end.

End Js.

(** ** Paths

    A path is kept in normalised form, as the list of its segments below
    the root.  [process.cwd()], [__dirname] and the [buildPath] handed over by
    the packager are absolute; the literals the configuration joins to them
    are relative and use [/], which both flavours of [path.join] split on. *)

Definition path := list string.

Module Path.

(** The segments of a relative literal, split on [/]; [acc] holds the
    characters of the current segment, last one first. *)
Fixpoint split_from (acc : list ascii) (s : string) : list string :=
  match s with
  | EmptyString => [string_of_list_ascii (rev acc)]
  | String c s' =>
      if Ascii.eqb c "/" then string_of_list_ascii (rev acc) :: split_from [] s'
      else split_from (c :: acc) s'
  end.

Definition segments (s : string) : list string := split_from [] s.

(** Normalisation: [stack] is the path so far, innermost segment first.
    An empty segment and [.] are dropped, [..] removes the innermost
    segment (and stays at the root when there is none). *)
Fixpoint normalize (stack : list string) (segs : list string) : path :=
  match segs with
  | [] => rev stack
  | seg :: segs' =>
      if String.eqb seg "" then normalize stack segs'
      else if String.eqb seg "." then normalize stack segs'
      else if String.eqb seg ".." then normalize (tail stack) segs'
      else normalize (seg :: stack) segs'
  end.

(** [path.join(base, rel)] for an absolute [base]. *)
Definition join (base : path) (rel : string) : path :=
  normalize (rev base) (segments rel).

End Path.

(** ** The process, the manifest and the configuration record *)

(** What the script reads from its process: [process.cwd()], [__dirname] and
    [process.env.GITHUB_TOKEN] (undefined when the variable is not set). *)
Record Process := mkProcess {
  cwd : path;
  __dirname : path;
  env_GITHUB_TOKEN : option string
}.

(** [package.json], of which only [version] is read. *)
Record PackageJson := mkPackageJson {
  version : string
}.

Record PackagerConfig := mkPackagerConfig {
  name : string;
  executableName : string;
  icon : path;
  extraResource : list string;
  asar : bool;
  ignore : list string
}.

Record SquirrelConfig := mkSquirrelConfig {
  iconUrl : string;
  setupIcon : path;
  skipUpdateIcon : bool
}.

Record Maker := mkMaker {
  maker_name : string;
  maker_config : option SquirrelConfig
}.

Record Repository := mkRepository {
  owner : string;
  repo_name : string
}.

Record PublisherConfig := mkPublisherConfig {
  repository : Repository;
  prerelease : bool;
  generateReleaseNotes : bool;
  authToken : option string
}.

Record Publisher := mkPublisher {
  publisher_name : string;
  publisher_config : PublisherConfig
}.

Record ForgeConfig := mkForgeConfig {
  packagerConfig : PackagerConfig;
  makers : list Maker;
  plugins : list string;
  publishers : list Publisher
}.

Definition config (process : Process) (package_json : PackageJson) : ForgeConfig :=
  {| packagerConfig :=
       {| name := "Komorebi UI";
          executableName := "komorebi-ui";
          icon := Path.join (cwd process) "static/icons/icon";
          extraResource := ["static/apps_templates"; "static/redis"];
          asar := true;
          ignore := ["komorebi"; "scripts"; ".vscode"; ".gitignore"; ".gitmodules";
                     "eslint.config.js"; "tsconfig.json"; "src"] |};
     makers :=
       [ {| maker_name := "@electron-forge/maker-squirrel";
            maker_config := Some
              {| iconUrl := "https://raw.githubusercontent.com/eythaann/Komorebi-UI/master/static/icons/icon.ico";
                 setupIcon := Path.join (cwd process) "static/icons/icon.ico";
                 skipUpdateIcon := false |} |};
         {| maker_name := "@electron-forge/maker-zip"; maker_config := None |} ];
     plugins := ["@electron-forge/plugin-auto-unpack-natives"];
     publishers :=
       [ {| publisher_name := "@electron-forge/publisher-github";
            publisher_config :=
              {| repository := {| owner := "eythaann"; repo_name := "komorebi-ui" |};
                 prerelease := Js.includes (version package_json) "beta";
                 generateReleaseNotes := true;
                 authToken := env_GITHUB_TOKEN process |} |} ] |}.

(** The [prerelease] flag of the first (and only) publisher. *)
Definition prerelease_flag (process : Process) (package_json : PackageJson) : bool :=
  match publishers (config process package_json) with
  | p :: _ => prerelease (publisher_config p)
  | [] => false
  end.

(** ** The file store and the effect monad *)

Inductive error :=
| ENOENT (p : path)            (* no such file *)
| ExternalError (msg : string) (* an external tool rejected or exited non-zero *).

Inductive result (A : Type) :=
| Ok (a : A)
| Throw (e : error).
Arguments Ok {A} a.
Arguments Throw {A} e.

(** What a hook does, in the order it does it.  A file-system call is
    recorded when it has taken effect (a call that throws leaves no entry);
    a call to an external tool is recorded when it is issued. *)
Inductive event :=
| ReadFile (p : path)
| WriteFile (p : path) (data : string)
| CopyFile (src dst : path)
| CompileFromFile (p : path)
| ImportModule (module : path)
| RunPwshScript (script args : string).

Record World := mkWorld {
  files : gmap path string;
  log : list event
}.

Definition emit (e : event) (w : World) : World :=
  {| files := files w; log := log w ++ [e] |}.

Definition set_files (fs : gmap path string) (w : World) : World :=
  {| files := fs; log := log w |}.

(** A computation runs from a world to a world and either returns or throws;
    what was written before a throw stays written. *)
Definition M (A : Type) : Type := World -> World * result A.

Definition ret {A} (a : A) : M A := fun w => (w, Ok a).

Definition bind {A B} (m : M A) (k : A -> M B) : M B :=
  fun w =>
    match m w with
    | (w', Ok a) => k a w'
    | (w', Throw e) => (w', Throw e)
    end.

Notation "x <- m ;; k" := (bind m (fun x => k))
  (at level 100, m at next level, right associativity).
Notation "m ;; k" := (bind m (fun _ => k))
  (at level 100, right associativity).

(** The tools outside the configuration.  Each is a function of its
    arguments and of the file store alone. *)
Class Externals := {
  (** json-schema-to-typescript on the schema file [p] holding [schema] *)
  compile : path -> string -> result string;
  (** evaluating a module: what it leaves in the file store, and whether it threw *)
  run_module : path -> gmap path string -> gmap path string * result unit;
  (** [runPwshScript(script, args)] of [src/background/utils], a module that
      is not among the sources at hand: what the script leaves in the file
      store, and whether the call threw *)
  run_pwsh : string -> string -> gmap path string -> gmap path string * result unit;
  (** the platform's text for a path (separator, drive prefix) *)
  path_to_string : path -> string
}.

(** The synchronous [fs] calls of the hooks.  The store is flat: a file is
    there or not.  The destinations of the hooks lie in directories that are
    there when the hooks run (the staging directory the packager has filled,
    the directory of the license just read, the [src] directory the
    configuration itself requires a module from), so the directory of a
    destination is taken to exist and to be writable, and the one error these
    calls throw is a missing source.  What is proved below of a write or a
    copy that takes place is proved under that reading. *)
Module Fs.

(** [fs.readFileSync(p).toString()] *)
Definition readFileSync (p : path) : M string :=
  fun w =>
    match files w !! p with
    | Some data => (emit (ReadFile p) w, Ok data)
    | None => (w, Throw (ENOENT p))
    end.

(** [fs.writeFileSync(p, data)]: creates or overwrites [p]. *)
Definition writeFileSync (p : path) (data : string) : M unit :=
  fun w => (emit (WriteFile p data) (set_files (<[p := data]> (files w)) w), Ok tt).

(** [fs.copyFileSync(src, dst)]: creates or overwrites [dst]. *)
Definition copyFileSync (src dst : path) : M unit :=
  fun w =>
    match files w !! src with
    | Some data => (emit (CopyFile src dst) (set_files (<[dst := data]> (files w)) w), Ok tt)
    | None => (w, Throw (ENOENT src))
    end.

End Fs.

Section Hooks.

Context {tools : Externals}.
Variable process : Process.

(** A relative path given to [fs] or to the compiler is resolved against
    the working directory; [import] resolves against the importing file. *)
Definition from_cwd (rel : string) : path := Path.join (cwd process) rel.
Definition from_dirname (rel : string) : path := Path.join (__dirname process) rel.

(** [await compileFromFile(p)] *)
Definition compileFromFile (p : path) : M string :=
  fun w =>
    let w1 := emit (CompileFromFile p) w in
    match files w1 !! p with
    | Some schema => (w1, compile p schema)
    | None => (w1, Throw (ENOENT p))
    end.

(** [await import(m)] *)
Definition import (m : path) : M unit :=
  fun w =>
    let w1 := emit (ImportModule m) w in
    let (fs, r) := run_module m (files w1) in
    (set_files fs w1, r).

(** [await runPwshScript(script, args)] *)
Definition runPwshScript (script args : string) : M unit :=
  fun w =>
    let w1 := emit (RunPwshScript script args) w in
    let (fs, r) := run_pwsh script args (files w1) in
    (set_files fs w1, r).

Definition generateAssets (forgeConfig : ForgeConfig) (platform version : string) : M unit :=
  json <- compileFromFile (from_cwd "./komorebi/schema.json") ;;
  Fs.writeFileSync (from_cwd "./src/JsonSettings.interface.ts") json ;;
  yaml <- compileFromFile (from_cwd "./komorebi/schema.asc.json") ;;
  Fs.writeFileSync (from_cwd "./src/YamlSettings.interface.ts") yaml ;;
  import (from_dirname "./scripts/build.mjs").

Definition prePackage (forgeConfig : ForgeConfig) (platform version : string) : M unit :=
  runPwshScript "prePackage.ps1"
    ("-Folder " +:+ path_to_string (Path.join (cwd process) "out/Komorebi UI-win32-x64")).

Definition packageAfterCopy (forgeConfig : ForgeConfig) (buildPath : path)
    (electronVersion platform arch : string) : M unit :=
  ownLicense <- Fs.readFileSync (Path.join (__dirname process) "LICENSE") ;;
  komorebiLicense <- Fs.readFileSync (Path.join (__dirname process) "komorebi/LICENSE") ;;
  electronLicense <- Fs.readFileSync (Path.join buildPath "../../LICENSE") ;;
  Fs.writeFileSync (Path.join buildPath "../../LICENSE")
    (Js.join [ownLicense; komorebiLicense; electronLicense] (Js.LF +:+ Js.LF +:+ "- - -" +:+ Js.LF +:+ Js.LF)) ;;
  Fs.copyFileSync
    (Path.join (__dirname process) "komorebi/target/x86_64-pc-windows-msvc/release/komorebi.exe")
    (Path.join buildPath "komorebi.exe") ;;
  Fs.copyFileSync
    (Path.join (__dirname process) "komorebi/target/x86_64-pc-windows-msvc/release/komorebic.exe")
    (Path.join buildPath "komorebic.exe") ;;
  Fs.copyFileSync
    (Path.join (__dirname process) "komorebi/komorebi.sample.ahk")
    (Path.join buildPath "komorebi.sample.ahk") ;;
  Fs.copyFileSync
    (Path.join (__dirname process) "komorebi/komorebic.lib.ahk")
    (Path.join buildPath "komorebic.lib.ahk").

End Hooks.

(** A run of a hook starts from a file store, with nothing logged yet. *)
Definition exec {A} (m : M A) (fs : gmap path string) : World * result A :=
  m {| files := fs; log := [] |}.

(** The hooks in the order the packager calls them. *)
Definition pipeline {tools : Externals} (process : Process) (package_json : PackageJson)
    (platform arch version electronVersion : string) (buildPath : path) : M unit :=
  generateAssets process (config process package_json) platform version ;;
  prePackage process (config process package_json) platform version ;;
  packageAfterCopy process (config process package_json) buildPath electronVersion platform arch.

(** The last segment of a path, and the directory that holds it. *)
Definition basename (p : path) : string := List.last p "".
Definition parent (p : path) : path := removelast p.

(** The four artifacts of the window manager that are staged. *)
Definition artifact_sources (process : Process) : list path :=
  [ __dirname process ++ ["komorebi"; "target"; "x86_64-pc-windows-msvc"; "release"; "komorebi.exe"];
    __dirname process ++ ["komorebi"; "target"; "x86_64-pc-windows-msvc"; "release"; "komorebic.exe"];
    __dirname process ++ ["komorebi"; "komorebi.sample.ahk"];
    __dirname process ++ ["komorebi"; "komorebic.lib.ahk"] ].

(** Where an artifact lands: in the staging directory, under its own name. *)
Definition staged (buildPath src : path) : path := buildPath ++ [basename src].

Definition artifact_copies (process : Process) (buildPath : path) : list (path * path) :=
  map (fun src => (src, staged buildPath src)) (artifact_sources process).

(** The three license files, and the separator put between their texts. *)
Definition own_license (process : Process) : path := __dirname process ++ ["LICENSE"].
Definition wrapped_license (process : Process) : path := __dirname process ++ ["komorebi"; "LICENSE"].
Definition framework_license (buildPath : path) : path := parent (parent buildPath) ++ ["LICENSE"].

Definition separator : string := Js.LF +:+ Js.LF +:+ "- - -" +:+ Js.LF +:+ Js.LF.

Definition merged_license (own wrapped framework : string) : string :=
  own +:+ separator +:+ wrapped +:+ separator +:+ framework.

(** Copying a list of (source, destination) pairs, first to last. *)
Fixpoint copy_all (l : list (path * path)) : M unit :=
  match l with
  | [] => ret tt
  | (src, dst) :: rest => Fs.copyFileSync src dst ;; copy_all rest
  end.

Definition copy_event (sd : path * path) : event := CopyFile (fst sd) (snd sd).


(** The same process with another value of [GITHUB_TOKEN]. *)
Definition with_token (token : option string) (process : Process) : Process :=
  {| cwd := cwd process; __dirname := __dirname process; env_GITHUB_TOKEN := token |}.

(** A configuration with the credential of every publisher blanked. *)
Definition redact_publisher (p : Publisher) : Publisher :=
  {| publisher_name := publisher_name p;
     publisher_config :=
       {| repository := repository (publisher_config p);
          prerelease := prerelease (publisher_config p);
          generateReleaseNotes := generateReleaseNotes (publisher_config p);
          authToken := None |} |}.

Definition redact (c : ForgeConfig) : ForgeConfig :=
  {| packagerConfig := packagerConfig c;
     makers := makers c;
     plugins := plugins c;
     publishers := map redact_publisher (publishers c) |}.

(** The schema files, the generated interface files and the build script. *)
Definition json_schema (process : Process) : path := cwd process ++ ["komorebi"; "schema.json"].
Definition yaml_schema (process : Process) : path := cwd process ++ ["komorebi"; "schema.asc.json"].
Definition json_types (process : Process) : path := cwd process ++ ["src"; "JsonSettings.interface.ts"].
Definition yaml_types (process : Process) : path := cwd process ++ ["src"; "YamlSettings.interface.ts"].
Definition build_script (process : Process) : path := __dirname process ++ ["scripts"; "build.mjs"].

(** The events of a complete run of [generateAssets], in order. *)
Definition generateAssets_plan (process : Process) (json yaml : string) : list event :=
  [ CompileFromFile (json_schema process);
    WriteFile (json_types process) json;
    CompileFromFile (yaml_schema process);
    WriteFile (yaml_types process) yaml;
    ImportModule (build_script process) ].

(** The argument string handed to the PowerShell script. *)
Definition prePackage_args {tools : Externals} (process : Process) : string :=
  "-Folder " +:+ path_to_string (cwd process ++ ["out"; "Komorebi UI-win32-x64"]).

Definition is_import (e : event) : bool :=
  match e with
  | ImportModule _ => true
  | _ => false
  end.

(** The seven files [packageAfterCopy] needs: three licenses, four artifacts. *)
Definition required_files (process : Process) (buildPath : path) : list path :=
  [ own_license process; wrapped_license process; framework_license buildPath ]
  ++ artifact_sources process.

(** The five files [packageAfterCopy] may write: the merged license and the
    four staged artifacts. *)
Definition written_files (process : Process) (buildPath : path) : list path :=
  framework_license buildPath :: map (staged buildPath) (artifact_sources process).

(** The world [packageAfterCopy] is in once the merged license is written,
    when run on the store [fs] holding the three texts. *)
Definition after_license_phase (process : Process) (buildPath : path)
    (fs : gmap path string) (own wrapped framework : string) : World :=
  {| files := <[framework_license buildPath := merged_license own wrapped framework]> fs;
     log := [ ReadFile (own_license process);
              ReadFile (wrapped_license process);
              ReadFile (framework_license buildPath);
              WriteFile (framework_license buildPath) (merged_license own wrapped framework) ] |}.



(** ** A fixture tree

    A small repository checkout and staging directory on which the
    properties below are exercised. *)

Module Fixture.

Definition render (p : path) : string :=
  fold_right (fun seg acc => "/" +:+ seg +:+ acc) "" p.

(** Tools that succeed: the compiler prefixes a banner to the schema text. *)
Definition tools : Externals :=
  {| compile := fun _ schema => Ok ("/* generated */ " +:+ schema);
     run_module := fun _ fs => (fs, Ok tt);
     run_pwsh := fun _ _ fs => (fs, Ok tt);
     path_to_string := render |}.

(** The same tools with a PowerShell script that exits non-zero. *)
Definition tools_failing_script : Externals :=
  {| compile := fun _ schema => Ok ("/* generated */ " +:+ schema);
     run_module := fun _ fs => (fs, Ok tt);
     run_pwsh := fun _ _ fs => (fs, Throw (ExternalError "exit code 1"));
     path_to_string := render |}.

Definition process : Process :=
  {| cwd := ["repo"]; __dirname := ["repo"]; env_GITHUB_TOKEN := Some "ghp_0123" |}.

Definition package_json : PackageJson := {| version := "2.0.0-beta" |}.

Definition buildPath : path := ["tmp"; "Komorebi UI-win32-x64"; "resources"; "app"].

Definition release : path := ["repo"; "komorebi"; "target"; "x86_64-pc-windows-msvc"; "release"].

(** Two schemas, three licenses, four artifacts. *)
Definition tree : gmap path string :=
  list_to_map
    [ (["repo"; "komorebi"; "schema.json"], "{}");
      (["repo"; "komorebi"; "schema.asc.json"], "{ }");
      (["repo"; "LICENSE"], "MIT");
      (["repo"; "komorebi"; "LICENSE"], "");
      (["tmp"; "Komorebi UI-win32-x64"; "LICENSE"], "Electron");
      (release ++ ["komorebi.exe"], "MZ1");
      (release ++ ["komorebic.exe"], "MZ2");
      (["repo"; "komorebi"; "komorebi.sample.ahk"], "ahk1");
      (["repo"; "komorebi"; "komorebic.lib.ahk"], "ahk2") ].

(** The same tree without [komorebic.exe]. *)
Definition tree_without_komorebic : gmap path string :=
  delete (release ++ ["komorebic.exe"]) tree.

(** The same tree without the window manager's license. *)
Definition tree_without_wrapped_license : gmap path string :=
  delete ["repo"; "komorebi"; "LICENSE"] tree.


(** The same tree without the first schema. *)
Definition tree_without_json_schema : gmap path string :=
  delete ["repo"; "komorebi"; "schema.json"] tree.

(** The same tree without the second schema. *)
Definition tree_without_yaml_schema : gmap path string :=
  delete ["repo"; "komorebi"; "schema.asc.json"] tree.

End Fixture.

(** * Properties *)

(** ** Strings: [includes] is substring containment *)

Lemma startsWith_spec (needle s : string) :
  Js.startsWith s needle = true <-> exists post, s = needle +:+ post.
Proof.
  revert s. induction needle as [|c needle IH]; intros s.
  - split; [intros _; now exists s | intros _; now destruct s].
  - destruct s as [|d s]; simpl.
    + split; [discriminate | intros [post Hpost]; discriminate].
    + destruct (Ascii.eqb_spec c d) as [->|Hne].
      * split.
        -- intros Hs. apply IH in Hs as [post ->]. now exists post.
        -- intros [post Hpost]. apply IH. exists post. now injection Hpost.
      * split; [discriminate | intros [post Hpost]; injection Hpost; congruence].
Qed.

Lemma includes_unfold (s needle : string) :
  Js.includes s needle =
  if Js.startsWith s needle then true
  else match s with
       | EmptyString => false
       | String _ s' => Js.includes s' needle
       end.
Proof. now destruct s. Qed.

Lemma includes_spec (needle s : string) :
  Js.includes s needle = true <-> exists pre post, s = pre +:+ needle +:+ post.
Proof.
  induction s as [|d s IH]; rewrite includes_unfold.
  - destruct (Js.startsWith "" needle) eqn:E.
    + apply startsWith_spec in E as [post Hpost].
      split; [intros _; now exists "", post | reflexivity].
    + split; [discriminate |].
      intros [pre [post Hs]].
      destruct pre; simpl in Hs; [|discriminate].
      assert (Js.startsWith "" needle = true) by (apply startsWith_spec; eauto).
      congruence.
  - destruct (Js.startsWith (String d s) needle) eqn:E.
    + apply startsWith_spec in E as [post Hpost].
      split; [intros _; now exists "", post | reflexivity].
    + rewrite IH. split.
      * intros [pre [post Hs]]. exists (String d pre), post. simpl. now rewrite Hs.
      * intros [pre [post Hs]]. destruct pre as [|c pre]; simpl in Hs.
        -- assert (Js.startsWith (String d s) needle = true)
             by (apply startsWith_spec; eauto).
           congruence.
        -- injection Hs as _ Hs. eauto.
Qed.

(** ** Paths: what the joins of the configuration evaluate to *)

Lemma basename_snoc (p : path) (seg : string) : basename (p ++ [seg]) = seg.
Proof. apply last_last. Qed.

Lemma parent_snoc (p : path) (seg : string) : parent (p ++ [seg]) = p.
Proof. apply removelast_last. Qed.

Lemma rev_tail_rev (p : path) : rev (tail (rev p)) = parent p.
Proof.
  induction p as [|seg p _] using rev_ind; [reflexivity|].
  rewrite rev_unit. simpl. now rewrite rev_involutive, parent_snoc.
Qed.

Lemma tail_rev (p : path) : tail (rev p) = rev (parent p).
Proof. now rewrite <- rev_tail_rev, rev_involutive. Qed.

Ltac join_literal :=
  intros; unfold Path.join, Path.segments; simpl;
  rewrite ?tail_rev, ?rev_involutive, <- ?app_assoc; reflexivity.

Lemma join_LICENSE base : Path.join base "LICENSE" = base ++ ["LICENSE"].
Proof. join_literal. Qed.

Lemma join_komorebi_LICENSE base :
  Path.join base "komorebi/LICENSE" = base ++ ["komorebi"; "LICENSE"].
Proof. join_literal. Qed.

Lemma join_up_up_LICENSE base :
  Path.join base "../../LICENSE" = parent (parent base) ++ ["LICENSE"].
Proof. join_literal. Qed.

Lemma join_release_komorebi_exe base :
  Path.join base "komorebi/target/x86_64-pc-windows-msvc/release/komorebi.exe"
  = base ++ ["komorebi"; "target"; "x86_64-pc-windows-msvc"; "release"; "komorebi.exe"].
Proof. join_literal. Qed.

Lemma join_release_komorebic_exe base :
  Path.join base "komorebi/target/x86_64-pc-windows-msvc/release/komorebic.exe"
  = base ++ ["komorebi"; "target"; "x86_64-pc-windows-msvc"; "release"; "komorebic.exe"].
Proof. join_literal. Qed.

Lemma join_komorebi_sample_ahk base :
  Path.join base "komorebi/komorebi.sample.ahk" = base ++ ["komorebi"; "komorebi.sample.ahk"].
Proof. join_literal. Qed.

Lemma join_komorebic_lib_ahk base :
  Path.join base "komorebi/komorebic.lib.ahk" = base ++ ["komorebi"; "komorebic.lib.ahk"].
Proof. join_literal. Qed.

Lemma join_staged_komorebi_exe base : Path.join base "komorebi.exe" = base ++ ["komorebi.exe"].
Proof. join_literal. Qed.

Lemma join_staged_komorebic_exe base : Path.join base "komorebic.exe" = base ++ ["komorebic.exe"].
Proof. join_literal. Qed.

Lemma join_staged_sample_ahk base :
  Path.join base "komorebi.sample.ahk" = base ++ ["komorebi.sample.ahk"].
Proof. join_literal. Qed.

Lemma join_staged_lib_ahk base :
  Path.join base "komorebic.lib.ahk" = base ++ ["komorebic.lib.ahk"].
Proof. join_literal. Qed.

Lemma join_schema_json base :
  Path.join base "./komorebi/schema.json" = base ++ ["komorebi"; "schema.json"].
Proof. join_literal. Qed.

Lemma join_schema_asc_json base :
  Path.join base "./komorebi/schema.asc.json" = base ++ ["komorebi"; "schema.asc.json"].
Proof. join_literal. Qed.

Lemma join_JsonSettings base :
  Path.join base "./src/JsonSettings.interface.ts" = base ++ ["src"; "JsonSettings.interface.ts"].
Proof. join_literal. Qed.

Lemma join_YamlSettings base :
  Path.join base "./src/YamlSettings.interface.ts" = base ++ ["src"; "YamlSettings.interface.ts"].
Proof. join_literal. Qed.

Lemma join_build_mjs base :
  Path.join base "./scripts/build.mjs" = base ++ ["scripts"; "build.mjs"].
Proof. join_literal. Qed.

Lemma join_out_folder base :
  Path.join base "out/Komorebi UI-win32-x64" = base ++ ["out"; "Komorebi UI-win32-x64"].
Proof. join_literal. Qed.

(** Two paths with different last segments are different paths. *)
Lemma basename_neq (p q : path) : basename p <> basename q -> p <> q.
Proof. congruence. Qed.

(** ** The file-system calls *)

Lemma readFileSync_Some p data w :
  files w !! p = Some data -> Fs.readFileSync p w = (emit (ReadFile p) w, Ok data).
Proof. unfold Fs.readFileSync. now intros ->. Qed.

Lemma readFileSync_None p w :
  files w !! p = None -> Fs.readFileSync p w = (w, Throw (ENOENT p)).
Proof. unfold Fs.readFileSync. now intros ->. Qed.

Lemma copyFileSync_Some src dst data w :
  files w !! src = Some data ->
  Fs.copyFileSync src dst w
  = (emit (CopyFile src dst) (set_files (<[dst := data]> (files w)) w), Ok tt).
Proof. unfold Fs.copyFileSync. now intros ->. Qed.

Lemma copyFileSync_None src dst w :
  files w !! src = None -> Fs.copyFileSync src dst w = (w, Throw (ENOENT src)).
Proof. unfold Fs.copyFileSync. now intros ->. Qed.

Lemma bind_Ok {A B} (m : M A) (k : A -> M B) w w' a :
  m w = (w', Ok a) -> bind m k w = k a w'.
Proof. unfold bind. now intros ->. Qed.

Lemma bind_Throw {A B} (m : M A) (k : A -> M B) w w' e :
  m w = (w', Throw e) -> bind m k w = (w', Throw e).
Proof. unfold bind. now intros ->. Qed.

(** ** Copying a list of files *)

Section CopyAll.

Implicit Types (l : list (path * path)) (w : World).

(** The copies that took effect are an initial part of the list, and the
    only way to stop early is a missing source. *)
Lemma copy_all_log l w :
  exists done,
    done `prefix_of` l /\
    log (copy_all l w).1 = log w ++ map copy_event done /\
    ((copy_all l w).2 = Ok tt -> done = l) /\
    (forall e, (copy_all l w).2 = Throw e ->
       exists src, e = ENOENT src /\ src ∈ map fst l /\ files (copy_all l w).1 !! src = None).
Proof.
  revert w. induction l as [|[src dst] l IH]; intros w.
  - exists []. simpl. rewrite app_nil_r. repeat split; try done.
  - simpl. destruct (files w !! src) as [data|] eqn:Hsrc.
    + rewrite (bind_Ok _ _ _ _ _ (copyFileSync_Some _ dst _ _ Hsrc)).
      destruct (IH (emit (CopyFile src dst) (set_files (<[dst:=data]> (files w)) w)))
        as (done & Hpre & Hlog & Hok & Hthrow).
      exists ((src, dst) :: done). repeat split.
      * now apply prefix_cons.
      * rewrite Hlog. simpl. now rewrite <- app_assoc.
      * intros Hr. now rewrite (Hok Hr).
      * intros e He. destruct (Hthrow e He) as (s & -> & Hin & Hs).
        exists s. repeat split; [now right | done].
    + rewrite (bind_Throw _ _ _ _ _ (copyFileSync_None _ dst _ Hsrc)).
      exists []. simpl. rewrite app_nil_r. repeat split; try done.
      * apply prefix_nil.
      * intros e [= <-]. exists src. repeat split; [now left | done].
Qed.

(** A path that is no destination keeps its content. *)
Lemma copy_all_frame l w (q : path) :
  q ∉ map snd l -> files (copy_all l w).1 !! q = files w !! q.
Proof.
  revert w. induction l as [|[src dst] l IH]; intros w Hq; [done|].
  simpl in *. apply not_elem_of_cons in Hq as [Hne Hq].
  destruct (files w !! src) as [data|] eqn:Hsrc.
  - rewrite (bind_Ok _ _ _ _ _ (copyFileSync_Some _ dst _ _ Hsrc)).
    rewrite IH by done. simpl. now apply lookup_insert_ne.
  - now rewrite (bind_Throw _ _ _ _ _ (copyFileSync_None _ dst _ Hsrc)).
Qed.

(** When every file keeps its name and the names differ, a source that is
    missing at the start stops the run: a missing-file error is thrown, and
    its destination is neither written nor logged as copied. *)
Lemma copy_all_missing l w (src dst : path) :
  NoDup (map (fun sd => basename sd.2) l) ->
  (forall sd, sd ∈ l -> basename sd.1 = basename sd.2) ->
  (src, dst) ∈ l ->
  files w !! src = None ->
  (exists p, (copy_all l w).2 = Throw (ENOENT p)) /\
  files (copy_all l w).1 !! dst = files w !! dst /\
  (forall s, CopyFile s dst ∉ log w -> CopyFile s dst ∉ log (copy_all l w).1).
Proof.
  revert w. induction l as [|[src0 dst0] l IH]; intros w Hnodup Hnames Hin Hsrc.
  - now apply elem_of_nil in Hin.
  - simpl in *. apply NoDup_cons in Hnodup as [Hfresh Hnodup].
    destruct (files w !! src0) as [data|] eqn:Hsrc0.
    + rewrite (bind_Ok _ _ _ _ _ (copyFileSync_Some _ dst0 _ _ Hsrc0)).
      apply elem_of_cons in Hin as [Heq|Hin]; [congruence|].
      assert (Hbase : basename dst0 <> basename dst).
      { intros Hb. apply Hfresh. rewrite Hb.
        apply (list_elem_of_fmap_2 (fun sd => basename sd.2) l (src, dst)), Hin. }
      assert (Hsame : basename src = basename dst).
      { apply (Hnames (src, dst)). now right. }
      destruct (IH (emit (CopyFile src0 dst0) (set_files (<[dst0:=data]> (files w)) w)))
        as (Hthrow & Hdst & Hlog); try done.
      * intros sd Hsd. apply Hnames. now right.
      * simpl. rewrite lookup_insert_ne; [done|].
        apply basename_neq. congruence.
      * repeat split; [done| |].
        -- rewrite Hdst. simpl. apply lookup_insert_ne. now apply basename_neq.
        -- intros s Hs. apply Hlog. simpl. rewrite elem_of_app, list_elem_of_singleton.
           intros [?|[= _ Hd]]; [done|]. now rewrite Hd in Hbase.
    + rewrite (bind_Throw _ _ _ _ _ (copyFileSync_None _ dst0 _ Hsrc0)).
      simpl. repeat split; [now exists src0 | done].
Qed.

End CopyAll.

(** ** [packageAfterCopy] *)

Lemma basename_app (p q : path) : q <> [] -> basename (p ++ q) = basename q.
Proof.
  intros Hq. induction p as [|seg p IH]; [done|].
  unfold basename in *. rewrite <- IH. simpl.
  destruct (p ++ q) eqn:E; [|done].
  apply app_eq_nil in E as [_ ?]. congruence.
Qed.

Lemma artifact_copies_eq process buildPath :
  artifact_copies process buildPath =
  [ (__dirname process ++ ["komorebi"; "target"; "x86_64-pc-windows-msvc"; "release"; "komorebi.exe"],
     buildPath ++ ["komorebi.exe"]);
    (__dirname process ++ ["komorebi"; "target"; "x86_64-pc-windows-msvc"; "release"; "komorebic.exe"],
     buildPath ++ ["komorebic.exe"]);
    (__dirname process ++ ["komorebi"; "komorebi.sample.ahk"], buildPath ++ ["komorebi.sample.ahk"]);
    (__dirname process ++ ["komorebi"; "komorebic.lib.ahk"], buildPath ++ ["komorebic.lib.ahk"]) ].
Proof.
  unfold artifact_copies, artifact_sources, staged. simpl.
  now rewrite !basename_app by done.
Qed.

Lemma bind_ret_tt (m : M unit) w : bind m (fun _ => ret tt) w = m w.
Proof. unfold bind, ret. now destruct (m w) as [w' [[]|e]]. Qed.

Lemma bind_ext {A B} (m : M A) (k1 k2 : A -> M B) w :
  (forall a w', k1 a w' = k2 a w') -> bind m k1 w = bind m k2 w.
Proof. intros Hk. unfold bind. destruct (m w) as [w' [a|e]]; [apply Hk | done]. Qed.

Lemma packageAfterCopy_unfold process forgeConfig buildPath electronVersion platform arch w :
  packageAfterCopy process forgeConfig buildPath electronVersion platform arch w =
  (own <- Fs.readFileSync (own_license process) ;;
   wrapped <- Fs.readFileSync (wrapped_license process) ;;
   framework <- Fs.readFileSync (framework_license buildPath) ;;
   Fs.writeFileSync (framework_license buildPath) (merged_license own wrapped framework) ;;
   copy_all (artifact_copies process buildPath)) w.
Proof.
  unfold packageAfterCopy.
  rewrite join_LICENSE, join_komorebi_LICENSE, join_up_up_LICENSE,
    join_release_komorebi_exe, join_release_komorebic_exe, join_komorebi_sample_ahk,
    join_komorebic_lib_ahk, join_staged_komorebi_exe, join_staged_komorebic_exe,
    join_staged_sample_ahk, join_staged_lib_ahk, artifact_copies_eq.
  fold (own_license process) (wrapped_license process) (framework_license buildPath).
  do 7 (apply bind_ext; intros ? ?).
  simpl. now rewrite bind_ret_tt.
Qed.

Section PackageAfterCopy.
Variables (process : Process) (forgeConfig : ForgeConfig) (buildPath : path).
Variables (electronVersion platform arch : string).

Let hook := packageAfterCopy process forgeConfig buildPath electronVersion platform arch.

(** The license phase either reads all three texts and writes the merged
    one, or stops at the first missing file having only read. *)
Lemma packageAfterCopy_cases w :
  (exists own wrapped framework,
     files w !! own_license process = Some own /\
     files w !! wrapped_license process = Some wrapped /\
     files w !! framework_license buildPath = Some framework /\
     hook w = copy_all (artifact_copies process buildPath)
       {| files := <[framework_license buildPath := merged_license own wrapped framework]> (files w);
          log := log w ++ [ ReadFile (own_license process);
                            ReadFile (wrapped_license process);
                            ReadFile (framework_license buildPath);
                            WriteFile (framework_license buildPath)
                              (merged_license own wrapped framework) ] |})
  \/
  (exists p reads,
     files w !! p = None /\
     p ∈ [own_license process; wrapped_license process; framework_license buildPath] /\
     reads `prefix_of` [ ReadFile (own_license process); ReadFile (wrapped_license process) ] /\
     hook w = ({| files := files w; log := log w ++ reads |}, Throw (ENOENT p))).
Proof.
  unfold hook. rewrite packageAfterCopy_unfold.
  destruct (files w !! own_license process) as [own|] eqn:Hown.
  2:{ right. exists (own_license process), []. repeat split; [done|set_solver|apply prefix_nil|].
      rewrite (bind_Throw _ _ _ _ _ (readFileSync_None _ _ Hown)).
      destruct w; simpl. now rewrite app_nil_r. }
  erewrite bind_Ok by (apply readFileSync_Some; exact Hown).
  destruct (files w !! wrapped_license process) as [wrapped|] eqn:Hwrapped.
  2:{ right. exists (wrapped_license process), [ReadFile (own_license process)].
      repeat split; [done|set_solver|by eexists|].
      now erewrite bind_Throw by (apply readFileSync_None; exact Hwrapped). }
  erewrite bind_Ok by (apply readFileSync_Some; exact Hwrapped).
  destruct (files w !! framework_license buildPath) as [framework|] eqn:Hframework.
  2:{ right. exists (framework_license buildPath),
        [ReadFile (own_license process); ReadFile (wrapped_license process)].
      repeat split; [done|set_solver|done|].
      erewrite bind_Throw by (apply readFileSync_None; exact Hframework).
      unfold emit; simpl. now rewrite <- app_assoc. }
  erewrite bind_Ok by (apply readFileSync_Some; exact Hframework).
  left. exists own, wrapped, framework. repeat split; try done.
  unfold bind at 1. unfold Fs.writeFileSync, emit, set_files; simpl.
  now rewrite <- !app_assoc.
Qed.

(** The staged files keep their names, and the names differ. *)
Lemma artifact_names_kept sd :
  sd ∈ artifact_copies process buildPath -> basename sd.1 = basename sd.2.
Proof.
  unfold artifact_copies. intros (src & -> & _)%list_elem_of_fmap_1.
  unfold staged. simpl. now rewrite basename_snoc.
Qed.

Lemma artifact_names_differ :
  NoDup (map (fun sd => basename sd.2) (artifact_copies process buildPath)).
Proof.
  rewrite artifact_copies_eq. simpl. rewrite !basename_snoc.
  apply (bool_decide_unpack _). by vm_compute.
Qed.

Lemma artifact_names sd :
  sd ∈ artifact_copies process buildPath ->
  basename sd.2 ∈ ["komorebi.exe"; "komorebic.exe"; "komorebi.sample.ahk"; "komorebic.lib.ahk"].
Proof.
  rewrite artifact_copies_eq. intros Hsd.
  repeat (apply elem_of_cons in Hsd as [->|Hsd]; [simpl; rewrite basename_snoc; set_solver|]).
  now apply elem_of_nil in Hsd.
Qed.

Lemma framework_license_basename : basename (framework_license buildPath) = "LICENSE".
Proof. apply basename_snoc. Qed.

(** The merged license is not among the staged files. *)
Lemma framework_license_not_staged :
  framework_license buildPath ∉ map snd (artifact_copies process buildPath).
Proof.
  intros (sd & Heq & Hsd)%list_elem_of_fmap_1.
  apply artifact_names in Hsd. rewrite <- Heq, framework_license_basename in Hsd.
  repeat (apply elem_of_cons in Hsd as [?|Hsd]; [discriminate|]).
  now apply elem_of_nil in Hsd.
Qed.

End PackageAfterCopy.

Section PackageAfterCopyClaims.
Variables (process : Process) (forgeConfig : ForgeConfig) (buildPath : path).
Variables (electronVersion platform arch : string).

Let hook := packageAfterCopy process forgeConfig buildPath electronVersion platform arch.

(** C1. Whatever the three license texts [own], [wrapped] and [framework]
    are (empty ones included), [packageAfterCopy] leaves in the framework's
    license file, two levels above the staging directory, exactly
    [own + sep + wrapped + sep + framework] with [sep] the separator
    [LF LF "- - -" LF LF]; that is the one write the hook performs. *)
Theorem packageAfterCopy_merged_license (fs : gmap path string) (own wrapped framework : string) :
  fs !! Path.join (__dirname process) "LICENSE" = Some own ->
  fs !! Path.join (__dirname process) "komorebi/LICENSE" = Some wrapped ->
  fs !! Path.join buildPath "../../LICENSE" = Some framework ->
  let w' := (exec hook fs).1 in
  let merged :=
    own +:+ (Js.LF +:+ Js.LF +:+ "- - -" +:+ Js.LF +:+ Js.LF) +:+
    wrapped +:+ (Js.LF +:+ Js.LF +:+ "- - -" +:+ Js.LF +:+ Js.LF) +:+ framework in
  Path.join buildPath "../../LICENSE" = parent (parent buildPath) ++ ["LICENSE"] /\
  files w' !! Path.join buildPath "../../LICENSE" = Some merged /\
  (forall p data, WriteFile p data ∈ log w' <->
     p = Path.join buildPath "../../LICENSE" /\ data = merged).
Proof.
  rewrite join_LICENSE, join_komorebi_LICENSE, join_up_up_LICENSE.
  fold (own_license process) (wrapped_license process) (framework_license buildPath).
  intros Hown Hwrapped Hframework w' merged. split; [done|].
  subst w'. unfold exec.
  destruct (packageAfterCopy_cases process forgeConfig buildPath electronVersion platform arch
              {| files := fs; log := [] |})
    as [(own' & wrapped' & framework' & Hown' & Hwrapped' & Hframework' & Hrun)
       |(p & reads & Hp & Hin & _)]; cbn [files] in *.
  - assert (own' = own) as -> by congruence.
    assert (wrapped' = wrapped) as -> by congruence.
    assert (framework' = framework) as -> by congruence.
    fold hook in Hrun. rewrite Hrun. split.
    + rewrite copy_all_frame by apply framework_license_not_staged.
      simpl. now rewrite lookup_insert_eq.
    + intros p data.
      edestruct copy_all_log as (done & _ & Hlog & _). rewrite Hlog. simpl.
      rewrite !elem_of_cons. split.
      * intros [?|[?|[?|[[= -> ->]|Hcopies]]]]; try done.
        apply list_elem_of_fmap_1 in Hcopies as (sd & ? & _). done.
      * intros [-> ->]. auto.
  - repeat (apply elem_of_cons in Hin as [->|Hin]; [congruence|]).
    now apply elem_of_nil in Hin.
Qed.

(** The sources and destinations of the copies as the configuration writes
    them. *)
Lemma artifact_copies_joins :
  artifact_copies process buildPath =
  [ (Path.join (__dirname process) "komorebi/target/x86_64-pc-windows-msvc/release/komorebi.exe",
     Path.join buildPath "komorebi.exe");
    (Path.join (__dirname process) "komorebi/target/x86_64-pc-windows-msvc/release/komorebic.exe",
     Path.join buildPath "komorebic.exe");
    (Path.join (__dirname process) "komorebi/komorebi.sample.ahk",
     Path.join buildPath "komorebi.sample.ahk");
    (Path.join (__dirname process) "komorebi/komorebic.lib.ahk",
     Path.join buildPath "komorebic.lib.ahk") ].
Proof.
  now rewrite artifact_copies_eq, join_release_komorebi_exe, join_release_komorebic_exe,
    join_komorebi_sample_ahk, join_komorebic_lib_ahk, join_staged_komorebi_exe,
    join_staged_komorebic_exe, join_staged_sample_ahk, join_staged_lib_ahk.
Qed.

(** C4. When one of the four artifact sources is absent as
    [packageAfterCopy] starts, the hook throws a missing-file error, and the
    staged file of that artifact is left as it was (absent if it was absent):
    no copy to it is performed. *)
Theorem packageAfterCopy_missing_artifact (fs : gmap path string) (src : path) :
  src ∈ artifact_sources process ->
  fs !! src = None ->
  (exists p, (exec hook fs).2 = Throw (ENOENT p)) /\
  files (exec hook fs).1 !! staged buildPath src = fs !! staged buildPath src /\
  (forall s, CopyFile s (staged buildPath src) ∉ log (exec hook fs).1).
Proof.
  intros Hsrc Hmissing. unfold exec.
  assert (Hcopy : (src, staged buildPath src) ∈ artifact_copies process buildPath).
  { unfold artifact_copies.
    apply (list_elem_of_fmap_2 (fun src => (src, staged buildPath src))), Hsrc. }
  assert (Hname : basename (staged buildPath src) <> "LICENSE").
  { intros Heq. apply artifact_names in Hcopy. simpl in Hcopy. rewrite Heq in Hcopy.
    repeat (apply elem_of_cons in Hcopy as [?|Hcopy]; [discriminate|]).
    now apply elem_of_nil in Hcopy. }
  assert (Hkept : basename src = basename (staged buildPath src)).
  { apply (artifact_names_kept process buildPath _ Hcopy). }
  destruct (packageAfterCopy_cases process forgeConfig buildPath electronVersion platform arch
              {| files := fs; log := [] |})
    as [(own & wrapped & framework & _ & _ & _ & Hrun)
       |(p & reads & _ & _ & Hreads & Hrun)]; fold hook in Hrun; rewrite Hrun.
  - match goal with |- context [copy_all _ ?w] => set (w4 := w) end.
    destruct (copy_all_missing (artifact_copies process buildPath) w4
                src (staged buildPath src)) as (Hthrow & Hdst & Hlog).
    + apply artifact_names_differ.
    + apply artifact_names_kept.
    + exact Hcopy.
    + simpl. rewrite lookup_insert_ne; [done|].
      apply basename_neq. rewrite framework_license_basename. congruence.
    + split; [exact Hthrow|]. split.
      * rewrite Hdst. simpl. apply lookup_insert_ne.
        apply basename_neq. now rewrite framework_license_basename.
      * intros s. apply Hlog. simpl. rewrite !elem_of_cons, elem_of_nil.
        intuition discriminate.
  - simpl. split; [by exists p|]. split; [done|].
    intros s Hs. destruct Hreads as [rest Hrest].
    assert (Hin : CopyFile s (staged buildPath src)
                  ∈ [ReadFile (own_license process); ReadFile (wrapped_license process)]).
    { rewrite Hrest. apply elem_of_app. now left. }
    rewrite !elem_of_cons, elem_of_nil in Hin. intuition discriminate.
Qed.

(** C10. When one of the three license files cannot be read,
    [packageAfterCopy] throws the missing-file error having only read: the
    file store is as it was, so the framework's license file is unchanged and
    no artifact has been staged, and the log holds no write and no copy. *)
Theorem packageAfterCopy_reads_first (fs : gmap path string) :
  fs !! Path.join (__dirname process) "LICENSE" = None \/
  fs !! Path.join (__dirname process) "komorebi/LICENSE" = None \/
  fs !! Path.join buildPath "../../LICENSE" = None ->
  files (exec hook fs).1 = fs /\
  (exists p, (exec hook fs).2 = Throw (ENOENT p) /\ fs !! p = None /\
     p ∈ [ Path.join (__dirname process) "LICENSE";
           Path.join (__dirname process) "komorebi/LICENSE";
           Path.join buildPath "../../LICENSE" ]) /\
  (forall e, e ∈ log (exec hook fs).1 -> exists p, e = ReadFile p).
Proof.
  rewrite join_LICENSE, join_komorebi_LICENSE, join_up_up_LICENSE.
  fold (own_license process) (wrapped_license process) (framework_license buildPath).
  intros Hmissing. unfold exec.
  destruct (packageAfterCopy_cases process forgeConfig buildPath electronVersion platform arch
              {| files := fs; log := [] |})
    as [(own & wrapped & framework & Hown & Hwrapped & Hframework & _)
       |(p & reads & Hp & Hin & Hreads & Hrun)]; cbn [files] in *.
  - destruct Hmissing as [?|[?|?]]; congruence.
  - fold hook in Hrun. rewrite Hrun. simpl. split; [done|]. split; [by exists p|].
    intros e He. destruct Hreads as [rest Hrest].
    assert (Hin' : e ∈ [ReadFile (own_license process); ReadFile (wrapped_license process)]).
    { rewrite Hrest. apply elem_of_app. now left. }
    rewrite !elem_of_cons, elem_of_nil in Hin'. destruct Hin' as [->|[->|[]]]; eauto.
Qed.

End PackageAfterCopyClaims.

Lemma packageAfterCopy_merged_license_witness :
  let w' := (exec (packageAfterCopy Fixture.process
                     (config Fixture.process Fixture.package_json)
                     Fixture.buildPath "30.0.0" "win32" "x64") Fixture.tree).1 in
  Fixture.tree !! Path.join (__dirname Fixture.process) "LICENSE" = Some "MIT" /\
  Fixture.tree !! Path.join (__dirname Fixture.process) "komorebi/LICENSE" = Some "" /\
  Fixture.tree !! Path.join Fixture.buildPath "../../LICENSE" = Some "Electron" /\
  files w' !! Path.join Fixture.buildPath "../../LICENSE"
  = Some ("MIT" +:+ separator +:+ "" +:+ separator +:+ "Electron").
Proof.
  assert (H1 : Fixture.tree !! Path.join (__dirname Fixture.process) "LICENSE" = Some "MIT")
    by (vm_compute; reflexivity).
  assert (H2 : Fixture.tree !! Path.join (__dirname Fixture.process) "komorebi/LICENSE" = Some "")
    by (vm_compute; reflexivity).
  assert (H3 : Fixture.tree !! Path.join Fixture.buildPath "../../LICENSE" = Some "Electron")
    by (vm_compute; reflexivity).
  intros w'. split; [exact H1|]. split; [exact H2|]. split; [exact H3|].
  exact (proj1 (proj2 (packageAfterCopy_merged_license Fixture.process
           (config Fixture.process Fixture.package_json) Fixture.buildPath
           "30.0.0" "win32" "x64" Fixture.tree "MIT" "" "Electron" H1 H2 H3))).
Defined.


(** ** [generateAssets] *)

Section GenerateAssets.

Context {tools : Externals}.
Variables (process : Process) (forgeConfig : ForgeConfig) (platform version : string).

Let hook := generateAssets process forgeConfig platform version.

Lemma yaml_schema_not_json_types : json_types process <> yaml_schema process.
Proof. unfold json_types, yaml_schema. intros Heq%app_inv_head. discriminate. Qed.

Lemma json_types_not_yaml_types : yaml_types process <> json_types process.
Proof. unfold json_types, yaml_types. intros Heq%app_inv_head. discriminate. Qed.

(** Either both schemas compile, both interface files are written and the
    build script is started on the resulting store; or the run stops at the
    first schema that is missing or rejected, before the build script. *)
Lemma generateAssets_cases fs :
  (exists schema1 schema2 json yaml,
     fs !! json_schema process = Some schema1 /\
     fs !! yaml_schema process = Some schema2 /\
     compile (json_schema process) schema1 = Ok json /\
     compile (yaml_schema process) schema2 = Ok yaml /\
     let store := <[yaml_types process := yaml]> (<[json_types process := json]> fs) in
     exec hook fs =
       ({| files := (run_module (build_script process) store).1;
           log := generateAssets_plan process json yaml |},
        (run_module (build_script process) store).2))
  \/
  (exists e stopped,
     (exec hook fs).2 = Throw e /\
     log (exec hook fs).1 = stopped /\
     (stopped = [CompileFromFile (json_schema process)] /\
      (fs !! json_schema process = None \/
       exists schema1, fs !! json_schema process = Some schema1 /\
                       compile (json_schema process) schema1 = Throw e)
      \/
      exists json,
        stopped = [CompileFromFile (json_schema process); WriteFile (json_types process) json;
                   CompileFromFile (yaml_schema process)] /\
        (fs !! yaml_schema process = None \/
         exists schema2, fs !! yaml_schema process = Some schema2 /\
                         compile (yaml_schema process) schema2 = Throw e))).
Proof.
  destruct (exec hook fs) as [w' r] eqn:Hrun. cbn [fst snd].
  unfold hook, exec, generateAssets, from_cwd, from_dirname in Hrun.
  rewrite join_schema_json, join_schema_asc_json, join_JsonSettings, join_YamlSettings,
    join_build_mjs in Hrun.
  fold (json_schema process) (yaml_schema process) (json_types process)
    (yaml_types process) (build_script process) in Hrun.
  unfold bind at 1 in Hrun. unfold compileFromFile at 1 in Hrun.
  cbn [files emit log set_files app] in Hrun.
  destruct (fs !! json_schema process) as [schema1|] eqn:Hs1.
  2:{ injection Hrun as <- <-. right. do 2 eexists. cbn [log]. eauto 6. }
  destruct (compile (json_schema process) schema1) as [json|e] eqn:Hc1.
  2:{ injection Hrun as <- <-. right. do 2 eexists. cbn [log]. eauto 8. }
  unfold bind at 1 in Hrun. unfold Fs.writeFileSync at 1 in Hrun.
  cbn [files emit log set_files app] in Hrun.
  unfold bind at 1 in Hrun. unfold compileFromFile at 1 in Hrun.
  cbn [files emit log set_files app] in Hrun.
  rewrite (lookup_insert_ne _ _ _ _ yaml_schema_not_json_types) in Hrun.
  destruct (fs !! yaml_schema process) as [schema2|] eqn:Hs2.
  2:{ injection Hrun as <- <-. right. do 2 eexists. cbn [log].
      split; [done|]. split; [done|]. right. exists json. auto. }
  destruct (compile (yaml_schema process) schema2) as [yaml|e] eqn:Hc2.
  2:{ injection Hrun as <- <-. right. do 2 eexists. cbn [log].
      split; [done|]. split; [done|]. right. exists json. eauto 6. }
  left. exists schema1, schema2, json, yaml. repeat split; try done.
  rewrite <- Hrun. unfold bind, Fs.writeFileSync, import. cbn [files emit log set_files app].
  now destruct (run_module _ _).
Qed.

(** An [Import] at the end of a log without other imports is the only one. *)
Lemma import_unique (pre before after : list event) (b m : path) :
  Forall (fun e => is_import e = false) pre ->
  pre ++ [ImportModule b] = before ++ ImportModule m :: after ->
  before = pre /\ m = b /\ after = [].
Proof.
  intros Hpre. revert before. induction Hpre as [|e pre He Hpre IH]; intros before Heq.
  - destruct before as [|e' before]; simpl in Heq.
    + now injection Heq as <- <-.
    + injection Heq as _ Heq. now destruct before.
  - destruct before as [|e' before]; simpl in Heq.
    + injection Heq as -> _. discriminate.
    + injection Heq as <- Heq. destruct (IH _ Heq) as (-> & -> & ->). done.
Qed.

Lemma no_import (l before after : list event) (m : path) :
  Forall (fun e => is_import e = false) l -> l <> before ++ ImportModule m :: after.
Proof.
  intros Hl ->. apply Forall_app in Hl as [_ Hl]. apply Forall_cons in Hl as [Hl _]. discriminate.
Qed.

(** C5. Whenever the build script is started in a run of [generateAssets],
    both schemas have been compiled and both interface files have been
    written before it, in that order, and nothing follows it: the script
    runs on a store that holds the two generated files. *)
Theorem generateAssets_types_before_build (fs : gmap path string)
    (before after : list event) (m : path) :
  log (exec hook fs).1 = before ++ ImportModule m :: after ->
  exists json yaml,
    before = [ CompileFromFile (from_cwd process "./komorebi/schema.json");
               WriteFile (from_cwd process "./src/JsonSettings.interface.ts") json;
               CompileFromFile (from_cwd process "./komorebi/schema.asc.json");
               WriteFile (from_cwd process "./src/YamlSettings.interface.ts") yaml ] /\
    after = [] /\
    m = from_dirname process "./scripts/build.mjs" /\
    let store := <[from_cwd process "./src/YamlSettings.interface.ts" := yaml]>
                   (<[from_cwd process "./src/JsonSettings.interface.ts" := json]> fs) in
    store !! from_cwd process "./src/JsonSettings.interface.ts" = Some json /\
    store !! from_cwd process "./src/YamlSettings.interface.ts" = Some yaml /\
    exec hook fs = ({| files := (run_module m store).1; log := before ++ [ImportModule m] |},
                    (run_module m store).2).
Proof.
  unfold from_cwd, from_dirname.
  rewrite join_schema_json, join_schema_asc_json, join_JsonSettings, join_YamlSettings,
    join_build_mjs.
  fold (json_schema process) (yaml_schema process) (json_types process)
    (yaml_types process) (build_script process).
  intros Hlog.
  destruct (generateAssets_cases fs)
    as [(schema1 & schema2 & json & yaml & _ & _ & _ & _ & Hrun)
       |(e & stopped & _ & Hstopped & Hshape)].
  - cbn zeta in Hrun. rewrite Hrun in Hlog |- *. cbn [fst log] in Hlog.
    apply (import_unique
             [ CompileFromFile (json_schema process); WriteFile (json_types process) json;
               CompileFromFile (yaml_schema process); WriteFile (yaml_types process) yaml ])
      in Hlog as (-> & -> & ->); [|by repeat constructor].
    exists json, yaml. repeat split.
    + rewrite lookup_insert_ne by apply json_types_not_yaml_types.
      apply lookup_insert_eq.
    + apply lookup_insert_eq.
  - rewrite Hstopped in Hlog. exfalso. revert Hlog. apply no_import.
    destruct Hshape as [[-> _]|(json & -> & _)]; by repeat constructor.
Qed.


End GenerateAssets.

Lemma packageAfterCopy_missing_artifact_witness :
  let hook := packageAfterCopy Fixture.process (config Fixture.process Fixture.package_json)
                Fixture.buildPath "30.0.0" "win32" "x64" in
  let src := Fixture.release ++ ["komorebic.exe"] in
  src ∈ artifact_sources Fixture.process /\
  Fixture.tree_without_komorebic !! src = None /\
  (exists p, (exec hook Fixture.tree_without_komorebic).2 = Throw (ENOENT p)) /\
  files (exec hook Fixture.tree_without_komorebic).1 !! staged Fixture.buildPath src
  = Fixture.tree_without_komorebic !! staged Fixture.buildPath src /\
  (forall s, CopyFile s (staged Fixture.buildPath src)
             ∉ log (exec hook Fixture.tree_without_komorebic).1).
Proof.
  intros hook src.
  assert (H1 : src ∈ artifact_sources Fixture.process)
    by (apply (bool_decide_unpack _); vm_compute; exact I).
  assert (H2 : Fixture.tree_without_komorebic !! src = None) by (vm_compute; reflexivity).
  split; [exact H1|]. split; [exact H2|].
  exact (packageAfterCopy_missing_artifact Fixture.process
           (config Fixture.process Fixture.package_json) Fixture.buildPath
           "30.0.0" "win32" "x64" Fixture.tree_without_komorebic src H1 H2).
Defined.

Lemma packageAfterCopy_reads_first_witness :
  let hook := packageAfterCopy Fixture.process (config Fixture.process Fixture.package_json)
                Fixture.buildPath "30.0.0" "win32" "x64" in
  Fixture.tree_without_wrapped_license !! Path.join (__dirname Fixture.process) "komorebi/LICENSE"
  = None /\
  files (exec hook Fixture.tree_without_wrapped_license).1 = Fixture.tree_without_wrapped_license /\
  (forall e, e ∈ log (exec hook Fixture.tree_without_wrapped_license).1 ->
             exists p, e = ReadFile p).
Proof.
  intros hook.
  assert (H2 : Fixture.tree_without_wrapped_license
               !! Path.join (__dirname Fixture.process) "komorebi/LICENSE" = None)
    by (vm_compute; reflexivity).
  split; [exact H2|].
  destruct (packageAfterCopy_reads_first Fixture.process
              (config Fixture.process Fixture.package_json) Fixture.buildPath
              "30.0.0" "win32" "x64" Fixture.tree_without_wrapped_license
              (or_intror (or_introl H2))) as (Hfiles & _ & Hlog).
  split; [exact Hfiles | exact Hlog].
Defined.

Lemma generateAssets_types_before_build_witness :
  let hook := generateAssets (tools:=Fixture.tools) Fixture.process
                (config Fixture.process Fixture.package_json) "win32" "2.0.0-beta" in
  let before :=
    [ CompileFromFile ["repo"; "komorebi"; "schema.json"];
      WriteFile ["repo"; "src"; "JsonSettings.interface.ts"] "/* generated */ {}";
      CompileFromFile ["repo"; "komorebi"; "schema.asc.json"];
      WriteFile ["repo"; "src"; "YamlSettings.interface.ts"] "/* generated */ { }" ] in
  log (exec hook Fixture.tree).1 = before ++ ImportModule ["repo"; "scripts"; "build.mjs"] :: [] /\
  exists json yaml,
    before = [ CompileFromFile (from_cwd Fixture.process "./komorebi/schema.json");
               WriteFile (from_cwd Fixture.process "./src/JsonSettings.interface.ts") json;
               CompileFromFile (from_cwd Fixture.process "./komorebi/schema.asc.json");
               WriteFile (from_cwd Fixture.process "./src/YamlSettings.interface.ts") yaml ].
Proof.
  intros hook before.
  assert (Hlog : log (exec hook Fixture.tree).1
                 = before ++ ImportModule ["repo"; "scripts"; "build.mjs"] :: [])
    by (vm_compute; reflexivity).
  split; [exact Hlog|].
  destruct (generateAssets_types_before_build (tools:=Fixture.tools) Fixture.process
              (config Fixture.process Fixture.package_json) "win32" "2.0.0-beta"
              Fixture.tree before [] ["repo"; "scripts"; "build.mjs"] Hlog)
    as (json & yaml & Hbefore & _).
  exists json, yaml. exact Hbefore.
Defined.



(** ** [prePackage] *)

Section PrePackage.

Context {tools : Externals}.
Variables (process : Process) (forgeConfig : ForgeConfig).

(** The whole run of [prePackage]: one call of the script, whose store and
    outcome are the hook's. *)
Lemma prePackage_run (platform version : string) (fs : gmap path string) :
  exec (prePackage process forgeConfig platform version) fs =
    ({| files := (run_pwsh "prePackage.ps1" (prePackage_args process) fs).1;
        log := [RunPwshScript "prePackage.ps1" (prePackage_args process)] |},
     (run_pwsh "prePackage.ps1" (prePackage_args process) fs).2).
Proof.
  unfold exec, prePackage, runPwshScript, prePackage_args. rewrite join_out_folder.
  cbn [files emit log app]. now destruct (run_pwsh _ _ _).
Qed.

(** C7. [prePackage] runs [prePackage.ps1] once, with the output folder
    [<cwd>/out/Komorebi UI-win32-x64] put after [-Folder ] in the argument
    string, and its outcome is the script's: an error thrown by the script
    is the hook's error. *)
Theorem prePackage_runs_script (platform version : string) (fs : gmap path string) :
  let folder := Path.join (cwd process) "out/Komorebi UI-win32-x64" in
  let args := "-Folder " +:+ path_to_string folder in
  folder = cwd process ++ ["out"; "Komorebi UI-win32-x64"] /\
  exec (prePackage process forgeConfig platform version) fs =
    ({| files := (run_pwsh "prePackage.ps1" args fs).1;
        log := [RunPwshScript "prePackage.ps1" args] |},
     (run_pwsh "prePackage.ps1" args fs).2) /\
  (forall e, (run_pwsh "prePackage.ps1" args fs).2 = Throw e ->
             (exec (prePackage process forgeConfig platform version) fs).2 = Throw e).
Proof.
  intros folder args.
  assert (Hargs : args = prePackage_args process).
  { unfold args, folder, prePackage_args. now rewrite join_out_folder. }
  rewrite Hargs, prePackage_run.
  split; [apply join_out_folder|]. split; [reflexivity|].
  intros e He. exact He.
Qed.

(** C3, as the code has it. The platform plays no part in [prePackage]: on
    every platform it does what it does on Windows, which is to start the
    PowerShell script once and to make no file-system call of its own. *)
Theorem prePackage_ignores_platform (platform version : string) (fs : gmap path string) :
  exec (prePackage process forgeConfig platform version) fs
  = exec (prePackage process forgeConfig "win32" version) fs /\
  log (exec (prePackage process forgeConfig platform version) fs).1
  = [RunPwshScript "prePackage.ps1" (prePackage_args process)].
Proof.
  split; [reflexivity|]. now rewrite prePackage_run.
Qed.

End PrePackage.

(** C3, as stated, fails: on Linux the hook starts the script all the same. *)
Lemma prePackage_not_noop_off_windows :
  ~ (forall (tools : Externals) process forgeConfig platform version fs,
       platform <> "win32" ->
       log (exec (prePackage process forgeConfig platform version) fs).1 = [] /\
       files (exec (prePackage process forgeConfig platform version) fs).1 = fs).
Proof.
  intros Hnoop.
  destruct (Hnoop Fixture.tools Fixture.process
              (config Fixture.process Fixture.package_json) "linux" "2.0.0-beta" Fixture.tree)
    as [Hlog _]; [discriminate|].
  vm_compute in Hlog. discriminate.
Qed.

(** ** The configuration record *)

(** C2. The [prerelease] flag of the publisher is [true] exactly when the
    version string of the manifest contains [beta] as a substring. *)
Theorem prerelease_iff_beta (process : Process) (package_json : PackageJson) :
  exists publisher,
    publishers (config process package_json) = [publisher] /\
    (prerelease (publisher_config publisher) = true <->
     exists pre post, version package_json = pre +:+ "beta" +:+ post).
Proof.
  eexists. split; [reflexivity|]. simpl. apply includes_spec.
Qed.

Example prerelease_beta_1 process :
  prerelease_flag process {| version := "1.2.0-beta.1" |} = true.
Proof. reflexivity. Qed.

Example prerelease_betax process :
  prerelease_flag process {| version := "1.2.0-betax" |} = true.
Proof. reflexivity. Qed.

Example prerelease_release process :
  prerelease_flag process {| version := "1.2.0" |} = false.
Proof. reflexivity. Qed.

(** C9. Two runs that differ only in [GITHUB_TOKEN] run the same hooks: each
    of the three hooks, and the three in a row, produce the same log of
    file-system calls and external invocations, the same store and the same
    outcome; the two configurations agree once [authToken] is blanked, and
    [authToken] holds the variable's value. *)
Theorem token_reaches_authToken_only {tools : Externals} (process : Process)
    (token : option string) (package_json : PackageJson)
    (platform arch version electronVersion : string) (buildPath : path) (w : World) :
  let process' := with_token token process in
  let forgeConfig := config process package_json in
  let forgeConfig' := config process' package_json in
  generateAssets process' forgeConfig' platform version w
  = generateAssets process forgeConfig platform version w /\
  prePackage process' forgeConfig' platform version w
  = prePackage process forgeConfig platform version w /\
  packageAfterCopy process' forgeConfig' buildPath electronVersion platform arch w
  = packageAfterCopy process forgeConfig buildPath electronVersion platform arch w /\
  pipeline process' package_json platform arch version electronVersion buildPath w
  = pipeline process package_json platform arch version electronVersion buildPath w /\
  redact forgeConfig' = redact forgeConfig /\
  map (fun p => authToken (publisher_config p)) (publishers forgeConfig') = [token].
Proof.
  intros process' forgeConfig forgeConfig'. repeat split.
Qed.

(** ** The three hooks on the fixture tree *)

Example pipeline_on_fixture :
  let run := exec (pipeline (tools:=Fixture.tools) Fixture.process Fixture.package_json
                     "win32" "x64" "2.0.0-beta" "30.0.0" Fixture.buildPath) Fixture.tree in
  run.2 = Ok tt /\
  files run.1 !! ["repo"; "src"; "JsonSettings.interface.ts"] = Some "/* generated */ {}" /\
  files run.1 !! ["repo"; "src"; "YamlSettings.interface.ts"] = Some "/* generated */ { }" /\
  files run.1 !! ["tmp"; "Komorebi UI-win32-x64"; "LICENSE"]
  = Some ("MIT" +:+ separator +:+ "" +:+ separator +:+ "Electron") /\
  files run.1 !! (Fixture.buildPath ++ ["komorebi.exe"]) = Some "MZ1" /\
  files run.1 !! (Fixture.buildPath ++ ["komorebic.exe"]) = Some "MZ2" /\
  files run.1 !! (Fixture.buildPath ++ ["komorebi.sample.ahk"]) = Some "ahk1" /\
  files run.1 !! (Fixture.buildPath ++ ["komorebic.lib.ahk"]) = Some "ahk2" /\
  prerelease_flag Fixture.process Fixture.package_json = true.
Proof. vm_compute. repeat split. Qed.

Example prePackage_failing_script :
  exec (prePackage (tools:=Fixture.tools_failing_script) Fixture.process
          (config Fixture.process Fixture.package_json) "win32" "2.0.0-beta") Fixture.tree
  = ({| files := Fixture.tree;
        log := [RunPwshScript "prePackage.ps1" "-Folder /repo/out/Komorebi UI-win32-x64"] |},
     Throw (ExternalError "exit code 1")).
Proof. reflexivity. Qed.

Example packageAfterCopy_without_komorebic :
  let run := exec (packageAfterCopy Fixture.process (config Fixture.process Fixture.package_json)
                     Fixture.buildPath "30.0.0" "win32" "x64") Fixture.tree_without_komorebic in
  run.2 = Throw (ENOENT (Fixture.release ++ ["komorebic.exe"])) /\
  files run.1 !! (Fixture.buildPath ++ ["komorebi.exe"]) = Some "MZ1" /\
  files run.1 !! (Fixture.buildPath ++ ["komorebic.exe"]) = None /\
  files run.1 !! (Fixture.buildPath ++ ["komorebi.sample.ahk"]) = None.
Proof. vm_compute. repeat split. Qed.

(** * Further properties of the hooks *)

(** ** Copying: success, and what a run leaves behind *)

Section CopyAllMore.

Implicit Types (l : list (path * path)) (w : World).

(** A map without repetition in its image is injective on the list. *)
Lemma NoDup_map_inj_on {A B} (f : A -> B) (l : list A) (x y : A) :
  NoDup (map f l) -> x ∈ l -> y ∈ l -> f x = f y -> x = y.
Proof.
  induction l as [|a l IH]; intros Hnodup Hx Hy Hxy.
  - now apply elem_of_nil in Hx.
  - simpl in Hnodup. apply NoDup_cons in Hnodup as [Hfresh Hnodup].
    apply elem_of_cons in Hx as [->|Hx]; apply elem_of_cons in Hy as [->|Hy]; auto.
    + exfalso. apply Hfresh. rewrite Hxy. now apply (list_elem_of_fmap_2 f).
    + exfalso. apply Hfresh. rewrite <- Hxy. now apply (list_elem_of_fmap_2 f).
Qed.

Lemma bind_assoc {A B C} (m : M A) (k : A -> M B) (h : B -> M C) w :
  bind (bind m k) h w = bind m (fun a => bind (k a) h) w.
Proof. unfold bind. now destruct (m w) as [w1 [a|e]]. Qed.

Lemma copy_all_app l1 l2 w :
  copy_all (l1 ++ l2) w = bind (copy_all l1) (fun _ => copy_all l2) w.
Proof.
  revert w. induction l1 as [|[src dst] l1 IH]; intros w; [done|].
  simpl. rewrite bind_assoc. apply bind_ext. intros _ w1. apply IH.
Qed.

(** A copy never removes a file. *)
Lemma copy_all_keeps l w (p : path) :
  is_Some (files w !! p) -> is_Some (files (copy_all l w).1 !! p).
Proof.
  revert w. induction l as [|[src dst] l IH]; intros w Hp; [done|].
  simpl. destruct (files w !! src) as [data|] eqn:Hsrc.
  - erewrite bind_Ok by (apply copyFileSync_Some; exact Hsrc).
    apply IH. simpl. apply lookup_insert_is_Some.
    destruct (decide (dst = p)); auto.
  - now erewrite bind_Throw by (apply copyFileSync_None; exact Hsrc).
Qed.

(** With distinct names that are kept, present sources are all copied: the
    run returns, and every destination holds what its source held. *)
Lemma copy_all_ok l w :
  NoDup (map (fun sd => basename sd.2) l) ->
  (forall sd, sd ∈ l -> basename sd.1 = basename sd.2) ->
  (forall sd, sd ∈ l -> is_Some (files w !! sd.1)) ->
  (copy_all l w).2 = Ok tt /\
  (forall sd, sd ∈ l -> files (copy_all l w).1 !! sd.2 = files w !! sd.1).
Proof.
  revert w. induction l as [|[src0 dst0] l IH]; intros w Hnodup Hnames Hsrc.
  - split; [done|]. intros sd Hsd. now apply elem_of_nil in Hsd.
  - simpl in Hnodup. apply NoDup_cons in Hnodup as [Hfresh Hnodup].
    destruct (Hsrc (src0, dst0)) as [data Hdata]; [by left|]. simpl in Hdata.
    simpl. erewrite bind_Ok by (apply copyFileSync_Some; exact Hdata).
    set (w1 := emit (CopyFile src0 dst0) (set_files (<[dst0:=data]> (files w)) w)).
    assert (Hother : forall sd, sd ∈ l -> sd.1 <> dst0 /\ sd.2 <> dst0).
    { intros sd Hsd.
      assert (basename sd.2 <> basename dst0).
      { intros Hb. apply Hfresh. rewrite <- Hb.
        apply (list_elem_of_fmap_2 (fun sd => basename sd.2) l sd), Hsd. }
      assert (basename sd.1 = basename sd.2) by (apply Hnames; now right).
      split; apply basename_neq; congruence. }
    destruct (IH w1) as [Hok Hdst]; [done| | |].
    + intros sd Hsd. apply Hnames. now right.
    + intros sd Hsd. subst w1. simpl. rewrite lookup_insert_ne.
      * apply Hsrc. now right.
      * intros Heq. destruct (Hother sd Hsd); congruence.
    + split; [exact Hok|]. intros sd [->|Hsd]%elem_of_cons.
      * simpl. rewrite copy_all_frame.
        -- subst w1. simpl. now rewrite lookup_insert_eq.
        -- intros (sd & Heq & Hsd)%list_elem_of_fmap_1.
           destruct (Hother sd Hsd); congruence.
      * rewrite (Hdst sd Hsd). subst w1. simpl. apply lookup_insert_ne.
        intros Heq. destruct (Hother sd Hsd); congruence.
Qed.

(** Conversely a run that returns found every source at its start. *)
Lemma copy_all_ok_inv l w :
  NoDup (map (fun sd => basename sd.2) l) ->
  (forall sd, sd ∈ l -> basename sd.1 = basename sd.2) ->
  (copy_all l w).2 = Ok tt ->
  forall sd, sd ∈ l -> is_Some (files w !! sd.1).
Proof.
  revert w. induction l as [|[src0 dst0] l IH]; intros w Hnodup Hnames Hok sd Hsd.
  - now apply elem_of_nil in Hsd.
  - simpl in Hnodup, Hok. apply NoDup_cons in Hnodup as [Hfresh Hnodup].
    destruct (files w !! src0) as [data|] eqn:Hsrc0.
    2:{ erewrite bind_Throw in Hok by (apply copyFileSync_None; exact Hsrc0). discriminate. }
    erewrite bind_Ok in Hok by (apply copyFileSync_Some; exact Hsrc0).
    apply elem_of_cons in Hsd as [->|Hsd]; [simpl; by rewrite Hsrc0|].
    assert (Hpresent : is_Some (files (emit (CopyFile src0 dst0)
                                  (set_files (<[dst0:=data]> (files w)) w)) !! sd.1)).
    { apply (IH _ Hnodup); [|exact Hok|exact Hsd]. intros sd' Hsd'. apply Hnames. now right. }
    simpl in Hpresent. rewrite lookup_insert_ne in Hpresent; [done|].
    apply basename_neq. rewrite (Hnames sd) by now right.
    intros Hb. apply Hfresh. rewrite Hb.
    apply (list_elem_of_fmap_2 (fun sd => basename sd.2) l sd), Hsd.
Qed.






End CopyAllMore.

(** ** [packageAfterCopy]: success, staging, frame and repetition *)

Section PackageAfterCopyMore.

Variables (process : Process) (forgeConfig : ForgeConfig) (buildPath : path).
Variables (electronVersion platform arch : string).

Let hook := packageAfterCopy process forgeConfig buildPath electronVersion platform arch.

Lemma packageAfterCopy_after_licenses (fs : gmap path string) (own wrapped framework : string) :
  fs !! own_license process = Some own ->
  fs !! wrapped_license process = Some wrapped ->
  fs !! framework_license buildPath = Some framework ->
  exec hook fs
  = copy_all (artifact_copies process buildPath)
      (after_license_phase process buildPath fs own wrapped framework).
Proof.
  intros Hown Hwrapped Hframework. unfold exec.
  destruct (packageAfterCopy_cases process forgeConfig buildPath electronVersion platform arch
              {| files := fs; log := [] |})
    as [(own' & wrapped' & framework' & Hown' & Hwrapped' & Hframework' & Hrun)
       |(p & reads & Hp & Hin & _)]; cbn [files] in *.
  - assert (own' = own) as -> by congruence.
    assert (wrapped' = wrapped) as -> by congruence.
    assert (framework' = framework) as -> by congruence.
    exact Hrun.
  - repeat (apply elem_of_cons in Hin as [->|Hin]; [congruence|]).
    now apply elem_of_nil in Hin.
Qed.

Lemma artifact_copies_fst :
  map fst (artifact_copies process buildPath) = artifact_sources process.
Proof. reflexivity. Qed.

Lemma artifact_copies_snd :
  map snd (artifact_copies process buildPath)
  = map (staged buildPath) (artifact_sources process).
Proof. reflexivity. Qed.

Lemma artifact_copy_of_source src :
  src ∈ artifact_sources process ->
  (src, staged buildPath src) ∈ artifact_copies process buildPath.
Proof.
  intros Hsrc. unfold artifact_copies.
  apply (list_elem_of_fmap_2 (fun src => (src, staged buildPath src))), Hsrc.
Qed.

(** No artifact, source or staged, is called [LICENSE]. *)
Lemma artifact_not_license sd :
  sd ∈ artifact_copies process buildPath ->
  sd.1 <> framework_license buildPath /\ sd.2 <> framework_license buildPath.
Proof.
  intros Hsd.
  assert (Hname : basename sd.2 <> "LICENSE").
  { intros Heq. apply artifact_names in Hsd. rewrite Heq in Hsd.
    repeat (apply elem_of_cons in Hsd as [?|Hsd]; [discriminate|]).
    now apply elem_of_nil in Hsd. }
  pose proof (artifact_names_kept process buildPath sd Hsd) as Hkept.
  split; apply basename_neq; rewrite framework_license_basename; congruence.
Qed.

Lemma required_licenses p :
  p = own_license process \/ p = wrapped_license process \/ p = framework_license buildPath ->
  p ∈ [own_license process; wrapped_license process; framework_license buildPath]
      ++ artifact_sources process.
Proof. intros Hp. apply elem_of_app. left. rewrite !elem_of_cons. tauto. Qed.

(** Every file of the merged license's name lies outside the staged ones. *)
Lemma license_named_not_staged (q : path) :
  basename q = "LICENSE" -> q ∉ map snd (artifact_copies process buildPath).
Proof.
  intros Hq (sd & Heq & Hsd)%list_elem_of_fmap_1.
  apply artifact_names in Hsd. rewrite <- Heq, Hq in Hsd.
  repeat (apply elem_of_cons in Hsd as [?|Hsd]; [discriminate|]).
  now apply elem_of_nil in Hsd.
Qed.

(** The sources are still there once the merged license is written. *)
Lemma sources_after_license_phase (fs : gmap path string) (own wrapped framework : string) :
  (forall src, src ∈ artifact_sources process -> is_Some (fs !! src)) ->
  forall sd, sd ∈ artifact_copies process buildPath ->
    is_Some (files (after_license_phase process buildPath fs own wrapped framework) !! sd.1).
Proof.
  intros Hall sd Hsd. simpl. rewrite lookup_insert_ne.
  - apply Hall. rewrite <- artifact_copies_fst. apply (list_elem_of_fmap_2 fst), Hsd.
  - intros Heq. destruct (artifact_not_license _ Hsd); congruence.
Qed.

Lemma packageAfterCopy_returns (fs : gmap path string) :
  (forall p, p ∈ required_files process buildPath -> is_Some (fs !! p)) ->
  (exec hook fs).2 = Ok tt.
Proof.
  unfold required_files. intros Hall.
  destruct (Hall (own_license process)) as [own Hown]; [apply required_licenses; auto|].
  destruct (Hall (wrapped_license process)) as [wrapped Hwrapped]; [apply required_licenses; auto|].
  destruct (Hall (framework_license buildPath)) as [framework Hframework]; [apply required_licenses; auto|].
  rewrite (packageAfterCopy_after_licenses fs own wrapped framework) by done.
  apply copy_all_ok.
  - apply artifact_names_differ.
  - apply artifact_names_kept.
  - apply sources_after_license_phase. intros src Hsrc. apply Hall, elem_of_app. now right.
Qed.

(** What the hook leaves in the license file. *)
Lemma packageAfterCopy_license_after (fs : gmap path string) (own wrapped framework : string) :
  fs !! own_license process = Some own ->
  fs !! wrapped_license process = Some wrapped ->
  fs !! framework_license buildPath = Some framework ->
  files (exec hook fs).1 !! framework_license buildPath
  = Some (merged_license own wrapped framework).
Proof.
  intros Hown Hwrapped Hframework.
  rewrite (packageAfterCopy_after_licenses fs own wrapped framework) by done.
  rewrite copy_all_frame by apply framework_license_not_staged.
  simpl. apply lookup_insert_eq.
Qed.

(** A path that is neither the license file nor a staged file is untouched. *)
Lemma packageAfterCopy_untouched (fs : gmap path string) (q : path) :
  q <> framework_license buildPath ->
  q ∉ map snd (artifact_copies process buildPath) ->
  files (exec hook fs).1 !! q = fs !! q.
Proof.
  intros Hlic Hstaged. unfold exec.
  destruct (packageAfterCopy_cases process forgeConfig buildPath electronVersion platform arch
              {| files := fs; log := [] |})
    as [(own & wrapped & framework & _ & _ & _ & Hrun)
       |(p & reads & _ & _ & _ & Hrun)]; fold hook in Hrun; rewrite Hrun.
  - rewrite copy_all_frame by done. simpl. now apply lookup_insert_ne.
  - done.
Qed.

(** No file is removed. *)
Lemma packageAfterCopy_keeps (fs : gmap path string) (p : path) :
  is_Some (fs !! p) -> is_Some (files (exec hook fs).1 !! p).
Proof.
  intros Hp. unfold exec.
  destruct (packageAfterCopy_cases process forgeConfig buildPath electronVersion platform arch
              {| files := fs; log := [] |})
    as [(own & wrapped & framework & _ & _ & _ & Hrun)
       |(q & reads & _ & _ & _ & Hrun)]; fold hook in Hrun; rewrite Hrun.
  - apply copy_all_keeps. simpl. apply lookup_insert_is_Some.
    destruct (decide (framework_license buildPath = p)); auto.
  - done.
Qed.

(** X1. [packageAfterCopy] returns normally only when the three license
    files and the four artifact sources are all there at its start: with any
    one of the seven missing it does not return. *)
Theorem packageAfterCopy_success_needs_files (fs : gmap path string) :
  (exec hook fs).2 = Ok tt ->
  forall p, p ∈ required_files process buildPath -> is_Some (fs !! p).
Proof.
  unfold required_files. intros Hok p Hp. unfold exec in Hok.
  destruct (packageAfterCopy_cases process forgeConfig buildPath electronVersion platform arch
              {| files := fs; log := [] |})
    as [(own & wrapped & framework & Hown & Hwrapped & Hframework & Hrun)
       |(q & reads & _ & _ & _ & Hrun)]; fold hook in Hrun; rewrite Hrun in Hok;
    cbn [files] in *; [|discriminate].
  apply elem_of_app in Hp as [Hp|Hp].
  - repeat (apply elem_of_cons in Hp as [->|Hp]; [by eexists|]).
    now apply elem_of_nil in Hp.
  - apply artifact_copy_of_source in Hp.
    pose proof (copy_all_ok_inv _ _ (artifact_names_differ process buildPath)
                  (artifact_names_kept process buildPath) Hok _ Hp) as Hsome.
    simpl in Hsome. rewrite lookup_insert_ne in Hsome; [done|].
    intros Heq. destruct (artifact_not_license _ Hp); cbn [fst snd] in *; congruence.
Qed.

(** X2. When all seven files are there, each artifact is staged under its own
    name with the content of its source, and the source keeps that content:
    the hook copies, it does not move. *)
Theorem packageAfterCopy_stages_sources (fs : gmap path string) (src : path) :
  (forall p, p ∈ required_files process buildPath -> is_Some (fs !! p)) ->
  src ∈ artifact_sources process ->
  files (exec hook fs).1 !! staged buildPath src = fs !! src /\
  files (exec hook fs).1 !! src = fs !! src.
Proof.
  unfold required_files. intros Hall Hsrc.
  destruct (Hall (own_license process)) as [own Hown]; [apply required_licenses; auto|].
  destruct (Hall (wrapped_license process)) as [wrapped Hwrapped]; [apply required_licenses; auto|].
  destruct (Hall (framework_license buildPath)) as [framework Hframework]; [apply required_licenses; auto|].
  rewrite (packageAfterCopy_after_licenses fs own wrapped framework) by done.
  pose proof (artifact_copy_of_source src Hsrc) as Hcopy.
  destruct (copy_all_ok (artifact_copies process buildPath)
              (after_license_phase process buildPath fs own wrapped framework))
    as [_ Hstaged].
  - apply artifact_names_differ.
  - apply artifact_names_kept.
  - intros sd Hsd. simpl. rewrite lookup_insert_ne.
    + apply Hall, elem_of_app. right. rewrite <- artifact_copies_fst.
      apply (list_elem_of_fmap_2 fst), Hsd.
    + intros Heq. destruct (artifact_not_license _ Hsd); cbn [fst snd] in *; congruence.
  - assert (Hfirst : files (copy_all (artifact_copies process buildPath)
                       (after_license_phase process buildPath fs own wrapped framework)).1
                     !! staged buildPath src = fs !! src).
    { pose proof (Hstaged _ Hcopy) as Hs. cbn [fst snd] in Hs. rewrite Hs.
      simpl. apply lookup_insert_ne.
      intros Heq. destruct (artifact_not_license _ Hcopy); cbn [fst snd] in *; congruence. }
    split; [exact Hfirst|].
    destruct (decide (src = staged buildPath src)) as [Heq|Hne].
    + now rewrite Heq at 1.
    + rewrite copy_all_frame.
      * simpl. apply lookup_insert_ne.
        intros Heq. destruct (artifact_not_license _ Hcopy); cbn [fst snd] in *; congruence.
      * intros (sd & Heq & Hsd)%list_elem_of_fmap_1.
        pose proof (artifact_names_kept process buildPath _ Hsd) as Hkept.
        pose proof (artifact_names_kept process buildPath _ Hcopy) as Hkept'.
        simpl in Hkept'.
        assert (Hsame : sd = (src, staged buildPath src)).
        { apply (NoDup_map_inj_on (fun sd => basename sd.2) (artifact_copies process buildPath));
            [apply artifact_names_differ|done|done|].
          simpl. congruence. }
        subst sd. simpl in Heq. done.
Qed.

(** X3. Whatever its outcome, [packageAfterCopy] changes no file other than
    the framework's license file and the four staged files, and it removes
    none: a file that was there is still there. *)
Theorem packageAfterCopy_frame (fs : gmap path string) (q : path) :
  (q ∉ written_files process buildPath -> files (exec hook fs).1 !! q = fs !! q) /\
  (is_Some (fs !! q) -> is_Some (files (exec hook fs).1 !! q)).
Proof.
  split; [|apply packageAfterCopy_keeps].
  unfold written_files. rewrite <- artifact_copies_snd.
  intros [Hlic Hstaged]%not_elem_of_cons. now apply packageAfterCopy_untouched.
Qed.

(** X4. The hook is not idempotent on the license: it reads the framework's
    license from the file it overwrites, so on a second run over the result
    of the first (all files present, the application's and the window
    manager's licenses being other files than the framework's) the two own
    texts are prepended once more. *)
Theorem packageAfterCopy_twice (fs : gmap path string) (own wrapped framework : string) :
  fs !! own_license process = Some own ->
  fs !! wrapped_license process = Some wrapped ->
  fs !! framework_license buildPath = Some framework ->
  (forall src, src ∈ artifact_sources process -> is_Some (fs !! src)) ->
  own_license process <> framework_license buildPath ->
  wrapped_license process <> framework_license buildPath ->
  let fs1 := files (exec hook fs).1 in
  fs1 !! framework_license buildPath = Some (merged_license own wrapped framework) /\
  (exec hook fs1).2 = Ok tt /\
  files (exec hook fs1).1 !! framework_license buildPath
  = Some (merged_license own wrapped (merged_license own wrapped framework)).
Proof.
  intros Hown Hwrapped Hframework Hsources Hown_ne Hwrapped_ne fs1.
  assert (Hlic1 : fs1 !! framework_license buildPath
                  = Some (merged_license own wrapped framework))
    by now apply packageAfterCopy_license_after.
  assert (Hown1 : fs1 !! own_license process = Some own).
  { subst fs1. rewrite packageAfterCopy_untouched; [done|done|].
    apply license_named_not_staged, basename_snoc. }
  assert (Hwrapped1 : fs1 !! wrapped_license process = Some wrapped).
  { subst fs1. rewrite packageAfterCopy_untouched; [done|done|].
    apply license_named_not_staged. unfold wrapped_license.
    now rewrite basename_app. }
  split; [exact Hlic1|]. split.
  - apply packageAfterCopy_returns. unfold required_files.
    intros p [Hp|Hp]%elem_of_app.
    + repeat (apply elem_of_cons in Hp as [->|Hp]; [by eexists|]).
      now apply elem_of_nil in Hp.
    + apply packageAfterCopy_keeps, Hsources, Hp.
  - now apply packageAfterCopy_license_after.
Qed.

(** X5. When the licenses are there and an artifact source is missing, the
    hook stops at the first missing one in the order of the configuration
    and throws the error naming it, without undoing anything: the merged
    license is written, the artifacts before it are staged with their
    sources' contents, and the staged files of that one and of the later
    ones are as they were. *)
Theorem packageAfterCopy_first_missing (fs : gmap path string) (own wrapped framework : string)
    (staged_before rest : list (path * path)) (src dst : path) :
  fs !! own_license process = Some own ->
  fs !! wrapped_license process = Some wrapped ->
  fs !! framework_license buildPath = Some framework ->
  artifact_copies process buildPath = staged_before ++ (src, dst) :: rest ->
  (forall sd, sd ∈ staged_before -> is_Some (fs !! sd.1)) ->
  fs !! src = None ->
  (exec hook fs).2 = Throw (ENOENT src) /\
  files (exec hook fs).1 !! framework_license buildPath
  = Some (merged_license own wrapped framework) /\
  (forall sd, sd ∈ staged_before -> files (exec hook fs).1 !! sd.2 = fs !! sd.1) /\
  (forall sd, sd ∈ (src, dst) :: rest -> files (exec hook fs).1 !! sd.2 = fs !! sd.2).
Proof.
  intros Hown Hwrapped Hframework Hsplit Hbefore Hmissing.
  pose proof (artifact_names_differ process buildPath) as Hnodup.
  pose proof (artifact_names_kept process buildPath) as Hkept.
  assert (Hnot_lic : forall sd, sd ∈ artifact_copies process buildPath ->
            sd.1 <> framework_license buildPath /\ sd.2 <> framework_license buildPath)
    by apply artifact_not_license.
  pose proof (packageAfterCopy_license_after fs own wrapped framework Hown Hwrapped Hframework)
    as Hlicense.
  rewrite (packageAfterCopy_after_licenses fs own wrapped framework) in * by done.
  rewrite Hsplit in *. clear Hsplit.
  set (w4 := after_license_phase process buildPath fs own wrapped framework) in *.
  rewrite map_app in Hnodup. apply NoDup_app in Hnodup as (Hnodup1 & Hdisjoint & Hnodup2).
  assert (Hin1 : forall sd, sd ∈ staged_before -> sd ∈ staged_before ++ (src, dst) :: rest).
  { intros sd Hsd. apply elem_of_app. now left. }
  assert (Hin2 : forall sd, sd ∈ (src, dst) :: rest -> sd ∈ staged_before ++ (src, dst) :: rest).
  { intros sd Hsd. apply elem_of_app. now right. }
  assert (Hapart : forall sd, sd ∈ (src, dst) :: rest ->
            (sd.1 ∉ map snd staged_before) /\ (sd.2 ∉ map snd staged_before)).
  { intros sd Hsd.
    assert (Hname : forall sd', sd' ∈ staged_before -> basename sd'.2 <> basename sd.2).
    { intros sd' Hsd' Hb.
      apply (Hdisjoint (basename sd'.2)).
      - apply (list_elem_of_fmap_2 (fun sd => basename sd.2)), Hsd'.
      - rewrite Hb. apply (list_elem_of_fmap_2 (fun sd => basename sd.2)), Hsd. }
    split; intros (sd' & Heq & Hsd')%list_elem_of_fmap_1; apply (Hname sd' Hsd').
    - rewrite <- Heq. apply Hkept, Hin2, Hsd.
    - now rewrite <- Heq. }
  destruct (copy_all_ok staged_before w4) as [Hok Hstaged]; [done| | |].
  { intros sd Hsd. apply Hkept, Hin1, Hsd. }
  { intros sd Hsd. subst w4. simpl. rewrite lookup_insert_ne; [now apply Hbefore|].
    intros Heq. destruct (Hnot_lic sd (Hin1 sd Hsd)); congruence. }
  rewrite copy_all_app in Hlicense |- *.
  destruct (copy_all staged_before w4) as [w5 r] eqn:Hrun5. cbn [fst snd] in Hok, Hstaged.
  subst r. rewrite (bind_Ok _ _ _ _ _ Hrun5) in Hlicense |- *.
  assert (Hframe : forall q, q ∉ map snd staged_before -> files w5 !! q = files w4 !! q).
  { intros q Hq. pose proof (copy_all_frame staged_before w4 q Hq) as Hf.
    now rewrite Hrun5 in Hf. }
  assert (Hsrc5 : files w5 !! src = None).
  { rewrite Hframe by (apply (Hapart (src, dst)); now left).
    subst w4. simpl. rewrite lookup_insert_ne; [done|].
    intros Heq. destruct (Hnot_lic (src, dst)) as [Hne _]; [apply Hin2; now left|].
    cbn [fst] in Hne. congruence. }
  simpl in Hlicense |- *.
  rewrite (bind_Throw _ _ _ _ _ (copyFileSync_None _ dst _ Hsrc5)) in Hlicense |- *.
  cbn [fst snd] in Hlicense |- *.
  split; [done|]. split; [exact Hlicense|]. split.
  - intros sd Hsd. rewrite (Hstaged sd Hsd). subst w4. simpl. apply lookup_insert_ne.
    intros Heq. destruct (Hnot_lic sd (Hin1 sd Hsd)); congruence.
  - intros sd Hsd. rewrite Hframe by apply (Hapart sd Hsd).
    subst w4. simpl. apply lookup_insert_ne.
    intros Heq. destruct (Hnot_lic sd (Hin2 sd Hsd)); congruence.
Qed.



End PackageAfterCopyMore.

(** ** The merged license keeps the three texts *)

Lemma string_app_cons (c : ascii) (s t : string) : String c s +:+ t = String c (s +:+ t).
Proof. reflexivity. Qed.

Lemma string_app_nil_l (s : string) : "" +:+ s = s.
Proof. reflexivity. Qed.

Lemma string_app_nil_r (s : string) : s +:+ "" = s.
Proof. induction s as [|c s IH]; [done | now rewrite string_app_cons, IH]. Qed.

Lemma string_app_assoc (s t u : string) : (s +:+ t) +:+ u = s +:+ t +:+ u.
Proof. induction s as [|c s IH]; [done | now rewrite !string_app_cons, IH]. Qed.

Lemma string_length_app (s t : string) :
  String.length (s +:+ t) = String.length s + String.length t.
Proof. induction s as [|c s IH]; [done | rewrite string_app_cons; simpl; now rewrite IH]. Qed.

(** Every element of an array occurs in its [join]. *)
Lemma join_includes (l : list string) (sep x : string) :
  x ∈ l -> Js.includes (Js.join l sep) x = true.
Proof.
  induction l as [|y l IH]; intros Hx; [now apply elem_of_nil in Hx|].
  apply includes_spec. apply elem_of_cons in Hx as [->|Hx].
  - destruct l as [|z l]; simpl.
    + exists "", "". now rewrite string_app_nil_l, string_app_nil_r.
    + now exists "", (sep +:+ Js.join (z :: l) sep).
  - destruct l as [|z l]; [now apply elem_of_nil in Hx|].
    apply IH, includes_spec in Hx as (pre & post & Hjoin).
    exists (y +:+ sep +:+ pre), post.
    change (Js.join (y :: z :: l) sep) with (y +:+ sep +:+ Js.join (z :: l) sep).
    now rewrite Hjoin, !string_app_assoc.
Qed.

(** The length of a [join]: the elements, and a separator between two. *)
Lemma join_length (l : list string) (sep : string) :
  String.length (Js.join l sep)
  = sum_list (map String.length l) + (length l - 1) * String.length sep.
Proof.
  induction l as [|y l IH]; [done|].
  destruct l as [|z l]; [simpl; lia|].
  change (Js.join (y :: z :: l) sep) with (y +:+ sep +:+ Js.join (z :: l) sep).
  rewrite !string_length_app, IH. simpl. lia.
Qed.

(** X6. The text [packageAfterCopy] leaves in the license file contains each
    of the three texts it read, and is 18 characters (two separators of 9)
    longer than the three together: nothing is dropped or cut. *)
Theorem packageAfterCopy_license_keeps_texts (process : Process) (forgeConfig : ForgeConfig)
    (buildPath : path) (electronVersion platform arch : string)
    (fs : gmap path string) (own wrapped framework : string) :
  fs !! Path.join (__dirname process) "LICENSE" = Some own ->
  fs !! Path.join (__dirname process) "komorebi/LICENSE" = Some wrapped ->
  fs !! Path.join buildPath "../../LICENSE" = Some framework ->
  exists merged,
    files (exec (packageAfterCopy process forgeConfig buildPath electronVersion platform arch)
             fs).1 !! Path.join buildPath "../../LICENSE" = Some merged /\
    Js.includes merged own = true /\
    Js.includes merged wrapped = true /\
    Js.includes merged framework = true /\
    String.length merged
    = String.length own + String.length wrapped + String.length framework + 18.
Proof.
  rewrite join_LICENSE, join_komorebi_LICENSE, join_up_up_LICENSE.
  fold (own_license process) (wrapped_license process) (framework_license buildPath).
  intros Hown Hwrapped Hframework.
  exists (merged_license own wrapped framework).
  split; [now apply packageAfterCopy_license_after|].
  change (merged_license own wrapped framework)
    with (Js.join [own; wrapped; framework] separator).
  repeat split.
  - apply join_includes. rewrite !elem_of_cons. auto.
  - apply join_includes. rewrite !elem_of_cons. auto.
  - apply join_includes. rewrite !elem_of_cons. auto.
  - rewrite join_length. simpl. lia.
Qed.

(** ** [generateAssets]: every outcome *)

Section GenerateAssetsMore.

Context {tools : Externals}.
Variables (process : Process) (forgeConfig : ForgeConfig) (platform version : string).

Let hook := generateAssets process forgeConfig platform version.

(** The run of [generateAssets] on a store, branch by branch. *)
Lemma generateAssets_run (fs : gmap path string) :
  exec hook fs =
  match fs !! json_schema process with
  | None =>
      ({| files := fs; log := [CompileFromFile (json_schema process)] |},
       Throw (ENOENT (json_schema process)))
  | Some schema1 =>
      match compile (json_schema process) schema1 with
      | Throw e => ({| files := fs; log := [CompileFromFile (json_schema process)] |}, Throw e)
      | Ok json =>
          let fs1 := <[json_types process := json]> fs in
          let log1 := [ CompileFromFile (json_schema process);
                        WriteFile (json_types process) json;
                        CompileFromFile (yaml_schema process) ] in
          match fs !! yaml_schema process with
          | None => ({| files := fs1; log := log1 |}, Throw (ENOENT (yaml_schema process)))
          | Some schema2 =>
              match compile (yaml_schema process) schema2 with
              | Throw e => ({| files := fs1; log := log1 |}, Throw e)
              | Ok yaml =>
                  let store := <[yaml_types process := yaml]> fs1 in
                  ({| files := (run_module (build_script process) store).1;
                      log := generateAssets_plan process json yaml |},
                   (run_module (build_script process) store).2)
              end
          end
      end
  end.
Proof.
  unfold hook, exec, generateAssets, from_cwd, from_dirname.
  rewrite join_schema_json, join_schema_asc_json, join_JsonSettings, join_YamlSettings,
    join_build_mjs.
  fold (json_schema process) (yaml_schema process) (json_types process)
    (yaml_types process) (build_script process).
  unfold bind at 1. unfold compileFromFile at 1. cbn [files emit log set_files app].
  destruct (fs !! json_schema process) as [schema1|]; [|done].
  destruct (compile (json_schema process) schema1) as [json|e]; [|done].
  unfold bind at 1. unfold Fs.writeFileSync at 1. cbn [files emit log set_files app].
  unfold bind at 1. unfold compileFromFile at 1. cbn [files emit log set_files app].
  rewrite (lookup_insert_ne _ _ _ _ (yaml_schema_not_json_types process)).
  destruct (fs !! yaml_schema process) as [schema2|]; [|done].
  destruct (compile (yaml_schema process) schema2) as [yaml|e]; [|done].
  unfold bind, Fs.writeFileSync, import. cbn [files emit log set_files app].
  now destruct (run_module _ _).
Qed.

(** X7. When the first schema is missing or the compiler rejects it,
    [generateAssets] throws that error having touched nothing: the store is
    as it was, no interface file is written, the second schema is not
    compiled and the build script is not started. *)
Theorem generateAssets_first_schema_fails (fs : gmap path string) (e : error) :
  (fs !! from_cwd process "./komorebi/schema.json" = None /\
   e = ENOENT (from_cwd process "./komorebi/schema.json")) \/
  (exists schema1,
     fs !! from_cwd process "./komorebi/schema.json" = Some schema1 /\
     compile (from_cwd process "./komorebi/schema.json") schema1 = Throw e) ->
  exec hook fs =
    ({| files := fs;
        log := [CompileFromFile (from_cwd process "./komorebi/schema.json")] |},
     Throw e).
Proof.
  unfold from_cwd. rewrite join_schema_json. fold (json_schema process).
  intros [[Hmissing ->]|(schema1 & Hschema & Hrejected)]; rewrite generateAssets_run.
  - now rewrite Hmissing.
  - now rewrite Hschema, Hrejected.
Qed.

(** X8. When the first schema compiles and the second is missing or
    rejected, [generateAssets] throws that error half way: the first
    interface file is written, the second is as it was, and the build
    script is not started. *)
Theorem generateAssets_second_schema_fails (fs : gmap path string)
    (schema1 json : string) (e : error) :
  fs !! from_cwd process "./komorebi/schema.json" = Some schema1 ->
  compile (from_cwd process "./komorebi/schema.json") schema1 = Ok json ->
  (fs !! from_cwd process "./komorebi/schema.asc.json" = None /\
   e = ENOENT (from_cwd process "./komorebi/schema.asc.json")) \/
  (exists schema2,
     fs !! from_cwd process "./komorebi/schema.asc.json" = Some schema2 /\
     compile (from_cwd process "./komorebi/schema.asc.json") schema2 = Throw e) ->
  exec hook fs =
    ({| files := <[from_cwd process "./src/JsonSettings.interface.ts" := json]> fs;
        log := [ CompileFromFile (from_cwd process "./komorebi/schema.json");
                 WriteFile (from_cwd process "./src/JsonSettings.interface.ts") json;
                 CompileFromFile (from_cwd process "./komorebi/schema.asc.json") ] |},
     Throw e) /\
  files (exec hook fs).1 !! from_cwd process "./src/YamlSettings.interface.ts"
  = fs !! from_cwd process "./src/YamlSettings.interface.ts".
Proof.
  unfold from_cwd.
  rewrite join_schema_json, join_schema_asc_json, join_JsonSettings, join_YamlSettings.
  fold (json_schema process) (yaml_schema process) (json_types process) (yaml_types process).
  intros Hschema1 Hjson Hsecond.
  assert (Hrun : exec hook fs =
                 ({| files := <[json_types process := json]> fs;
                     log := [ CompileFromFile (json_schema process);
                              WriteFile (json_types process) json;
                              CompileFromFile (yaml_schema process) ] |}, Throw e)).
  { rewrite generateAssets_run, Hschema1, Hjson. cbn zeta.
    destruct Hsecond as [[Hmissing ->]|(schema2 & Hschema2 & Hrejected)].
    - now rewrite Hmissing.
    - now rewrite Hschema2, Hrejected. }
  split; [exact Hrun|]. rewrite Hrun. simpl.
  apply lookup_insert_ne. intros Heq. now apply (json_types_not_yaml_types process).
Qed.

(** X9. [generateAssets] returns normally only when both schema files are
    there, the compiler accepts both, and the build script, run on the store
    holding the two generated files, returns normally. *)
Theorem generateAssets_success_needs (fs : gmap path string) :
  (exec hook fs).2 = Ok tt ->
  exists schema1 schema2 json yaml,
    fs !! from_cwd process "./komorebi/schema.json" = Some schema1 /\
    fs !! from_cwd process "./komorebi/schema.asc.json" = Some schema2 /\
    compile (from_cwd process "./komorebi/schema.json") schema1 = Ok json /\
    compile (from_cwd process "./komorebi/schema.asc.json") schema2 = Ok yaml /\
    (run_module (from_dirname process "./scripts/build.mjs")
       (<[from_cwd process "./src/YamlSettings.interface.ts" := yaml]>
          (<[from_cwd process "./src/JsonSettings.interface.ts" := json]> fs))).2 = Ok tt.
Proof.
  unfold from_cwd, from_dirname.
  rewrite join_schema_json, join_schema_asc_json, join_JsonSettings, join_YamlSettings,
    join_build_mjs.
  fold (json_schema process) (yaml_schema process) (json_types process)
    (yaml_types process) (build_script process).
  rewrite generateAssets_run.
  destruct (fs !! json_schema process) as [schema1|]; [|discriminate].
  destruct (compile (json_schema process) schema1) as [json|e] eqn:Hjson; [|discriminate].
  cbn zeta.
  destruct (fs !! yaml_schema process) as [schema2|]; [|discriminate].
  destruct (compile (yaml_schema process) schema2) as [yaml|e] eqn:Hyaml; [|discriminate].
  cbn [snd]. intros Hbuild. exists schema1, schema2, json, yaml. auto.
Qed.

End GenerateAssetsMore.

(** ** The prerelease flag as a function of the version *)

Lemma includes_needs_first_char (s needle : string) (c : ascii) :
  Js.includes s (String c needle) = true -> c ∈ list_ascii_of_string s.
Proof.
  induction s as [|d s IH]; rewrite includes_unfold; simpl; [discriminate|].
  destruct (Ascii.eqb_spec c d) as [->|Hne].
  - intros _. now left.
  - intros Hs. right. now apply IH.
Qed.

(** X10. A version that is flagged prerelease stays flagged whatever is put
    before or after it (a build suffix, a prefix such as [v]). *)
Theorem prerelease_monotone (process : Process) (v pre post : string) :
  prerelease_flag process {| version := v |} = true ->
  prerelease_flag process {| version := pre +:+ v +:+ post |} = true.
Proof.
  unfold prerelease_flag. simpl. rewrite !includes_spec.
  intros (pre' & post' & ->). exists (pre +:+ pre'), (post' +:+ post).
  now rewrite !string_app_assoc.
Qed.

(** X11. The test is on lower-case [beta]: a version in which the letter
    [b] does not occur, such as a plain [1.2.0] or an upper-case
    [1.2.0-BETA], is not flagged prerelease. *)
Theorem prerelease_needs_letter_b (process : Process) (package_json : PackageJson) :
  "b"%char ∉ list_ascii_of_string (version package_json) ->
  prerelease_flag process package_json = false.
Proof.
  intros Hb. unfold prerelease_flag. simpl.
  destruct (Js.includes (version package_json) "beta") eqn:Hbeta; [|done].
  now apply includes_needs_first_char in Hbeta.
Qed.

(** ** The further properties on the fixture tree *)

Lemma fixture_tree_complete :
  forall p, p ∈ required_files Fixture.process Fixture.buildPath -> is_Some (Fixture.tree !! p).
Proof. apply Forall_forall. apply (bool_decide_unpack _). vm_compute. exact I. Qed.

Lemma packageAfterCopy_stages_sources_witness :
  let hook := packageAfterCopy Fixture.process (config Fixture.process Fixture.package_json)
                Fixture.buildPath "30.0.0" "win32" "x64" in
  let src := Fixture.release ++ ["komorebic.exe"] in
  src ∈ artifact_sources Fixture.process /\
  files (exec hook Fixture.tree).1 !! staged Fixture.buildPath src = Fixture.tree !! src /\
  files (exec hook Fixture.tree).1 !! src = Fixture.tree !! src.
Proof.
  intros hook src.
  assert (Hsrc : src ∈ artifact_sources Fixture.process)
    by (apply (bool_decide_unpack _); vm_compute; exact I).
  split; [exact Hsrc|].
  exact (packageAfterCopy_stages_sources Fixture.process
           (config Fixture.process Fixture.package_json) Fixture.buildPath
           "30.0.0" "win32" "x64" Fixture.tree src fixture_tree_complete Hsrc).
Defined.

Lemma packageAfterCopy_twice_witness :
  let hook := packageAfterCopy Fixture.process (config Fixture.process Fixture.package_json)
                Fixture.buildPath "30.0.0" "win32" "x64" in
  let fs1 := files (exec hook Fixture.tree).1 in
  own_license Fixture.process <> framework_license Fixture.buildPath /\
  wrapped_license Fixture.process <> framework_license Fixture.buildPath /\
  (exec hook fs1).2 = Ok tt /\
  files (exec hook fs1).1 !! framework_license Fixture.buildPath
  = Some (merged_license "MIT" "" (merged_license "MIT" "" "Electron")).
Proof.
  intros hook fs1.
  assert (H1 : Fixture.tree !! own_license Fixture.process = Some "MIT")
    by (vm_compute; reflexivity).
  assert (H2 : Fixture.tree !! wrapped_license Fixture.process = Some "")
    by (vm_compute; reflexivity).
  assert (H3 : Fixture.tree !! framework_license Fixture.buildPath = Some "Electron")
    by (vm_compute; reflexivity).
  assert (H4 : forall src, src ∈ artifact_sources Fixture.process ->
                 is_Some (Fixture.tree !! src)).
  { apply Forall_forall. apply (bool_decide_unpack _). vm_compute. exact I. }
  assert (H5 : own_license Fixture.process <> framework_license Fixture.buildPath)
    by (vm_compute; discriminate).
  assert (H6 : wrapped_license Fixture.process <> framework_license Fixture.buildPath)
    by (vm_compute; discriminate).
  split; [exact H5|]. split; [exact H6|].
  exact (proj2 (packageAfterCopy_twice Fixture.process
                  (config Fixture.process Fixture.package_json) Fixture.buildPath
                  "30.0.0" "win32" "x64" Fixture.tree "MIT" "" "Electron"
                  H1 H2 H3 H4 H5 H6)).
Defined.

Lemma packageAfterCopy_first_missing_witness :
  let hook := packageAfterCopy Fixture.process (config Fixture.process Fixture.package_json)
                Fixture.buildPath "30.0.0" "win32" "x64" in
  let fs := Fixture.tree_without_komorebic in
  fs !! (Fixture.release ++ ["komorebic.exe"]) = None /\
  (exec hook fs).2 = Throw (ENOENT (Fixture.release ++ ["komorebic.exe"])) /\
  files (exec hook fs).1 !! framework_license Fixture.buildPath
  = Some (merged_license "MIT" "" "Electron").
Proof.
  intros hook fs.
  assert (H1 : fs !! own_license Fixture.process = Some "MIT") by (vm_compute; reflexivity).
  assert (H2 : fs !! wrapped_license Fixture.process = Some "") by (vm_compute; reflexivity).
  assert (H3 : fs !! framework_license Fixture.buildPath = Some "Electron")
    by (vm_compute; reflexivity).
  assert (H4 : artifact_copies Fixture.process Fixture.buildPath
               = [ (Fixture.release ++ ["komorebi.exe"], Fixture.buildPath ++ ["komorebi.exe"]) ]
                 ++ (Fixture.release ++ ["komorebic.exe"], Fixture.buildPath ++ ["komorebic.exe"])
                 :: [ (["repo"; "komorebi"; "komorebi.sample.ahk"],
                       Fixture.buildPath ++ ["komorebi.sample.ahk"]);
                      (["repo"; "komorebi"; "komorebic.lib.ahk"],
                       Fixture.buildPath ++ ["komorebic.lib.ahk"]) ])
    by reflexivity.
  assert (H5 : forall sd,
            sd ∈ [ (Fixture.release ++ ["komorebi.exe"], Fixture.buildPath ++ ["komorebi.exe"]) ] ->
            is_Some (fs !! sd.1)).
  { apply Forall_forall. apply (bool_decide_unpack _). vm_compute. exact I. }
  assert (H6 : fs !! (Fixture.release ++ ["komorebic.exe"]) = None)
    by (vm_compute; reflexivity).
  split; [exact H6|].
  destruct (packageAfterCopy_first_missing Fixture.process
              (config Fixture.process Fixture.package_json) Fixture.buildPath
              "30.0.0" "win32" "x64" fs "MIT" "" "Electron" _ _ _ _ H1 H2 H3 H4 H5 H6)
    as (Hthrow & Hlicense & _).
  split; [exact Hthrow | exact Hlicense].
Defined.

Lemma packageAfterCopy_license_keeps_texts_witness :
  Fixture.tree !! Path.join (__dirname Fixture.process) "LICENSE" = Some "MIT" /\
  Fixture.tree !! Path.join (__dirname Fixture.process) "komorebi/LICENSE" = Some "" /\
  Fixture.tree !! Path.join Fixture.buildPath "../../LICENSE" = Some "Electron" /\
  exists merged,
    files (exec (packageAfterCopy Fixture.process (config Fixture.process Fixture.package_json)
                   Fixture.buildPath "30.0.0" "win32" "x64") Fixture.tree).1
      !! Path.join Fixture.buildPath "../../LICENSE" = Some merged /\
    Js.includes merged "MIT" = true /\
    Js.includes merged "" = true /\
    Js.includes merged "Electron" = true /\
    String.length merged = 3 + 0 + 8 + 18.
Proof.
  assert (H1 : Fixture.tree !! Path.join (__dirname Fixture.process) "LICENSE" = Some "MIT")
    by (vm_compute; reflexivity).
  assert (H2 : Fixture.tree !! Path.join (__dirname Fixture.process) "komorebi/LICENSE" = Some "")
    by (vm_compute; reflexivity).
  assert (H3 : Fixture.tree !! Path.join Fixture.buildPath "../../LICENSE" = Some "Electron")
    by (vm_compute; reflexivity).
  split; [exact H1|]. split; [exact H2|]. split; [exact H3|].
  exact (packageAfterCopy_license_keeps_texts Fixture.process
           (config Fixture.process Fixture.package_json) Fixture.buildPath
           "30.0.0" "win32" "x64" Fixture.tree "MIT" "" "Electron" H1 H2 H3).
Defined.

Lemma generateAssets_first_schema_fails_witness :
  let hook := generateAssets (tools:=Fixture.tools) Fixture.process
                (config Fixture.process Fixture.package_json) "win32" "2.0.0-beta" in
  Fixture.tree_without_json_schema !! from_cwd Fixture.process "./komorebi/schema.json" = None /\
  exec hook Fixture.tree_without_json_schema =
    ({| files := Fixture.tree_without_json_schema;
        log := [CompileFromFile (from_cwd Fixture.process "./komorebi/schema.json")] |},
     Throw (ENOENT (from_cwd Fixture.process "./komorebi/schema.json"))).
Proof.
  intros hook.
  assert (H1 : Fixture.tree_without_json_schema
               !! from_cwd Fixture.process "./komorebi/schema.json" = None)
    by (vm_compute; reflexivity).
  split; [exact H1|].
  exact (generateAssets_first_schema_fails (tools:=Fixture.tools) Fixture.process
           (config Fixture.process Fixture.package_json) "win32" "2.0.0-beta"
           Fixture.tree_without_json_schema _ (or_introl (conj H1 eq_refl))).
Defined.

Lemma generateAssets_second_schema_fails_witness :
  let hook := generateAssets (tools:=Fixture.tools) Fixture.process
                (config Fixture.process Fixture.package_json) "win32" "2.0.0-beta" in
  let fs := Fixture.tree_without_yaml_schema in
  fs !! from_cwd Fixture.process "./komorebi/schema.json" = Some "{}" /\
  fs !! from_cwd Fixture.process "./komorebi/schema.asc.json" = None /\
  (exec hook fs).2 = Throw (ENOENT (from_cwd Fixture.process "./komorebi/schema.asc.json")) /\
  files (exec hook fs).1 !! from_cwd Fixture.process "./src/JsonSettings.interface.ts"
  = Some "/* generated */ {}" /\
  files (exec hook fs).1 !! from_cwd Fixture.process "./src/YamlSettings.interface.ts"
  = fs !! from_cwd Fixture.process "./src/YamlSettings.interface.ts".
Proof.
  intros hook fs.
  assert (H1 : fs !! from_cwd Fixture.process "./komorebi/schema.json" = Some "{}")
    by (vm_compute; reflexivity).
  assert (H2 : compile (Externals:=Fixture.tools)
                 (from_cwd Fixture.process "./komorebi/schema.json") "{}"
               = Ok "/* generated */ {}") by reflexivity.
  assert (H3 : fs !! from_cwd Fixture.process "./komorebi/schema.asc.json" = None)
    by (vm_compute; reflexivity).
  split; [exact H1|]. split; [exact H3|].
  destruct (generateAssets_second_schema_fails (tools:=Fixture.tools) Fixture.process
              (config Fixture.process Fixture.package_json) "win32" "2.0.0-beta"
              fs "{}" "/* generated */ {}" _ H1 H2 (or_introl (conj H3 eq_refl)))
    as [Hrun Hyaml].
  fold hook in Hrun, Hyaml. split; [now rewrite Hrun|]. split; [|exact Hyaml].
  rewrite Hrun. cbn [fst files]. apply lookup_insert_eq.
Defined.

Lemma prerelease_monotone_witness :
  prerelease_flag Fixture.process {| version := "2.0.0-beta" |} = true /\
  prerelease_flag Fixture.process {| version := "v" +:+ "2.0.0-beta" +:+ "+build.5" |} = true.
Proof.
  assert (H1 : prerelease_flag Fixture.process {| version := "2.0.0-beta" |} = true)
    by reflexivity.
  split; [exact H1|].
  exact (prerelease_monotone Fixture.process "2.0.0-beta" "v" "+build.5" H1).
Defined.

Lemma prerelease_needs_letter_b_witness :
("b"%char ∉ list_ascii_of_string "1.2.0-BETA") /\
  prerelease_flag Fixture.process {| version := "1.2.0-BETA" |} = false.
Proof.
  assert (H1 : "b"%char ∉ list_ascii_of_string (version {| version := "1.2.0-BETA" |}))
    by (apply (bool_decide_unpack _); vm_compute; exact I).
  split; [exact H1|].
  exact (prerelease_needs_letter_b Fixture.process {| version := "1.2.0-BETA" |} H1).
Defined.

(** ** [generateAssets] writes the two interface files and nothing else *)

(** X12. In every run of [generateAssets], finished or not, a write of the
    hook goes to one of the two interface files, never to a schema file:
    the hook itself leaves its inputs alone. *)
Theorem generateAssets_writes_only_interfaces {tools : Externals} (process : Process)
    (forgeConfig : ForgeConfig) (platform version : string)
    (fs : gmap path string) (p : path) (data : string) :
  WriteFile p data ∈ log (exec (generateAssets process forgeConfig platform version) fs).1 ->
  (p = from_cwd process "./src/JsonSettings.interface.ts" \/
   p = from_cwd process "./src/YamlSettings.interface.ts") /\
  p <> from_cwd process "./komorebi/schema.json" /\
  p <> from_cwd process "./komorebi/schema.asc.json".
Proof.
  unfold from_cwd.
  rewrite join_schema_json, join_schema_asc_json, join_JsonSettings, join_YamlSettings.
  fold (json_schema process) (yaml_schema process) (json_types process) (yaml_types process).
  intros Hwrite.
  assert (Htarget : p = json_types process \/ p = yaml_types process).
  { rewrite generateAssets_run in Hwrite.
    destruct (fs !! json_schema process) as [schema1|];
      [destruct (compile (json_schema process) schema1) as [json|e]; cbn zeta in Hwrite;
       [destruct (fs !! yaml_schema process) as [schema2|];
        [destruct (compile (yaml_schema process) schema2) as [yaml|e]|]|]|];
      cbn [fst log] in Hwrite; unfold generateAssets_plan in Hwrite;
      rewrite ?elem_of_cons, elem_of_nil in Hwrite;
      intuition (try discriminate); match goal with H : WriteFile _ _ = WriteFile _ _ |- _ =>
        injection H as -> _ end; auto. }
  split; [exact Htarget|].
  unfold json_types, yaml_types, json_schema, yaml_schema in *.
  split; intros Heq; destruct Htarget as [->| ->]; apply app_inv_head in Heq; discriminate.
Qed.

Lemma generateAssets_writes_only_interfaces_witness :
  let hook := generateAssets (tools:=Fixture.tools) Fixture.process
                (config Fixture.process Fixture.package_json) "win32" "2.0.0-beta" in
  let p := ["repo"; "src"; "YamlSettings.interface.ts"] in
  WriteFile p "/* generated */ { }" ∈ log (exec hook Fixture.tree).1 /\
  p <> from_cwd Fixture.process "./komorebi/schema.json" /\
  p <> from_cwd Fixture.process "./komorebi/schema.asc.json".
Proof.
  intros hook p.
  assert (H1 : WriteFile p "/* generated */ { }" ∈ log (exec hook Fixture.tree).1).
  { apply list_elem_of_In. vm_compute. auto 6. }
  split; [exact H1|].
  exact (proj2 (generateAssets_writes_only_interfaces (tools:=Fixture.tools) Fixture.process
                  (config Fixture.process Fixture.package_json) "win32" "2.0.0-beta"
                  Fixture.tree p "/* generated */ { }" H1)).
Defined.

Lemma packageAfterCopy_success_needs_files_witness :
  let hook := packageAfterCopy Fixture.process (config Fixture.process Fixture.package_json)
                Fixture.buildPath "30.0.0" "win32" "x64" in
  (exec hook Fixture.tree).2 = Ok tt /\
  (forall p, p ∈ required_files Fixture.process Fixture.buildPath ->
             is_Some (Fixture.tree !! p)).
Proof.
  intros hook.
  assert (H1 : (exec hook Fixture.tree).2 = Ok tt) by (vm_compute; reflexivity).
  split; [exact H1|].
  exact (packageAfterCopy_success_needs_files Fixture.process
           (config Fixture.process Fixture.package_json) Fixture.buildPath
           "30.0.0" "win32" "x64" Fixture.tree H1).
Defined.

Lemma generateAssets_success_needs_witness :
  let hook := generateAssets (tools:=Fixture.tools) Fixture.process
                (config Fixture.process Fixture.package_json) "win32" "2.0.0-beta" in
  (exec hook Fixture.tree).2 = Ok tt /\
  exists schema1 schema2 json yaml,
    Fixture.tree !! from_cwd Fixture.process "./komorebi/schema.json" = Some schema1 /\
    Fixture.tree !! from_cwd Fixture.process "./komorebi/schema.asc.json" = Some schema2 /\
    compile (Externals:=Fixture.tools)
      (from_cwd Fixture.process "./komorebi/schema.json") schema1 = Ok json /\
    compile (Externals:=Fixture.tools)
      (from_cwd Fixture.process "./komorebi/schema.asc.json") schema2 = Ok yaml.
Proof.
  intros hook.
  assert (H1 : (exec hook Fixture.tree).2 = Ok tt) by (vm_compute; reflexivity).
  split; [exact H1|].
  destruct (generateAssets_success_needs (tools:=Fixture.tools) Fixture.process
              (config Fixture.process Fixture.package_json) "win32" "2.0.0-beta"
              Fixture.tree H1)
    as (schema1 & schema2 & json & yaml & Hs1 & Hs2 & Hc1 & Hc2 & _).
  exists schema1, schema2, json, yaml. auto.
Defined.

Example packageAfterCopy_trace_without_komorebic :
  log (exec (packageAfterCopy Fixture.process (config Fixture.process Fixture.package_json)
               Fixture.buildPath "30.0.0" "win32" "x64") Fixture.tree_without_komorebic).1
  = [ ReadFile ["repo"; "LICENSE"];
      ReadFile ["repo"; "komorebi"; "LICENSE"];
      ReadFile ["tmp"; "Komorebi UI-win32-x64"; "LICENSE"];
      WriteFile ["tmp"; "Komorebi UI-win32-x64"; "LICENSE"] (merged_license "MIT" "" "Electron");
      CopyFile (Fixture.release ++ ["komorebi.exe"]) (Fixture.buildPath ++ ["komorebi.exe"]) ].
Proof. vm_compute. reflexivity. Qed.

Example packageAfterCopy_trace_without_wrapped_license :
  log (exec (packageAfterCopy Fixture.process (config Fixture.process Fixture.package_json)
               Fixture.buildPath "30.0.0" "win32" "x64")
         Fixture.tree_without_wrapped_license).1
  = [ ReadFile ["repo"; "LICENSE"] ].
Proof. vm_compute. reflexivity. Qed.
